(** * A shallow embedding of the FastAPI URL shortener (src/app/main.py)

    The file models the [URLShortener] table model, the SQLModel session the
    handlers work through, the two methods [generate_short_code] and
    [lookup_url], and the four HTTP handlers built on them, and then proves the
    properties claimed about them. *)

From Stdlib Require Import ZArith Ascii String List Lia.
From stdpp Require Import base tactics option list strings.
Import ListNotations.
Open Scope Z_scope.

(** ** Library code used by the program *)

(** *** [base62.encode] (pybase62)

    [[
    def encode(n, charset=CHARSET_DEFAULT):
        chs = []
        while n > 0:
            n, r = divmod(n, BASE)
            chs.insert(0, charset[r])
        if not chs:
            return "0"
        return "".join(chs)
    ]] *)

Module base62.

Definition BASE : Z := 62.

Definition CHARSET_DEFAULT : string :=
  "0123456789ABCDEFGHIJKLMNOPQRSTUVWXYZabcdefghijklmnopqrstuvwxyz".

(** [charset[r]]; [r] is a remainder modulo [BASE], so the index is always in
    range (lemma [charset_at_in_charset] below) and the [None] branch is not
    reached from [encode]. *)
Definition charset_at (r : Z) : ascii :=
  match String.get (Z.to_nat r) CHARSET_DEFAULT with
  | Some ch => ch
  | None => "0"%char
  end.

(** The [while] loop, with a bound on the number of iterations; [None] means
    that the bound was too small. *)
Fixpoint encode_loop (fuel : nat) (n : Z) (chs : list ascii) : option (list ascii) :=
  if n >? 0 then
    match fuel with
    | O => None
    | S fuel' =>
        let '(q, r) := Z.div_eucl n BASE in
        encode_loop fuel' q (charset_at r :: chs)
    end
  else Some chs.

(** One iteration per binary digit is more than enough: every iteration
    divides by 62 (lemma [encode_total]). *)
Definition encode_fuel (n : Z) : nat := S (Z.to_nat (Z.log2 n)).

Definition encode (n : Z) : option string :=
  match encode_loop (encode_fuel n) n [] with
  | None => None
  | Some [] => Some "0"%string
  | Some chs => Some (string_of_list_ascii chs)
  end.

End base62.

(** *** [uuid.uuid4().int]

    [uuid4] draws 16 random bytes and builds [UUID(bytes=..., version=4)],
    whose constructor stamps the variant and the version on the 128-bit
    integer:
    [[
    int &= ~(0xc000 << 48)
    int |= 0x8000 << 48
    int &= ~(0xf000 << 64)
    int |= version << 76
    ]]
    [rnd] is the integer read from the random bytes, [0 <= rnd < 2^128]. *)
Module uuid.

Definition uuid4_int (rnd : Z) : Z :=
  let int := rnd in
  let int := Z.land int (Z.lnot (Z.shiftl 0xc000 48)) in
  let int := Z.lor int (Z.shiftl 0x8000 48) in
  let int := Z.land int (Z.lnot (Z.shiftl 0xf000 64)) in
  let int := Z.lor int (Z.shiftl 4 76) in
  int.

End uuid.

(** [from uuid import uuid4], [from base62 import encode] *)
Import uuid.
Import base62.

(** ** The table model *)

(** [class URLShortener(SQLModel, table=True)]: one row of the table, and
    also the state of one ORM object. [id] is [None] until the first flush
    assigns the primary key. *)
Record URLShortener : Type := mkURLShortener {
  id : option Z;
  original_url : string;
  shorten_url : string;
  click_count : Z
}.

#[global] Instance URLShortener_eq_dec : EqDecision URLShortener.
Proof. solve_decision. Defined.

Definition set_id (v : option Z) (o : URLShortener) : URLShortener :=
  mkURLShortener v (original_url o) (shorten_url o) (click_count o).
Definition set_shorten_url (v : string) (o : URLShortener) : URLShortener :=
  mkURLShortener (id o) (original_url o) v (click_count o).
Definition set_click_count (v : Z) (o : URLShortener) : URLShortener :=
  mkURLShortener (id o) (original_url o) (shorten_url o) v.

(** [URLShortener(original_url=u)]: no primary key yet, [click_count] takes
    its default 0. [shorten_url] is not set by the constructor; it holds the
    empty string here until [generate_short_code] assigns it, and nothing
    reads it before that. *)
Definition new_URLShortener (u : string) : URLShortener :=
  mkURLShortener None u "" 0.

(** ** The session *)

(** Python objects are shared by reference: the session and the handler see
    the same [URLShortener] instance, and a flush or a refresh changes it in
    place. The session state therefore holds the committed rows of the table
    (in rowid order), the objects alive in this session, addressed by their
    position, and the references registered by [session.add] and not yet
    flushed. *)
Definition ref : Type := nat.

Record Session : Type := mkSession {
  db : list URLShortener;
  objects : list URLShortener;
  pending : list ref
}.

Inductive exn : Type :=
| IntegrityError                                      (* sqlalchemy.exc.IntegrityError *)
| InvalidRequestError                                 (* refresh of a row that is gone *)
| HTTPException (status_code : Z) (detail : string)   (* fastapi.HTTPException *)
| Stuck.  (* only in the model: a dangling reference, or [encode] out of fuel *)

#[global] Instance exn_eq_dec : EqDecision exn.
Proof. solve_decision. Defined.

(** A computation in a session either returns a value or raises; the session
    state is threaded through both. *)
Definition M (A : Type) : Type := Session → (exn + A) * Session.

#[global] Instance M_ret : MRet M := λ A a s, (inr a, s).
#[global] Instance M_bind : MBind M := λ A B k m s,
  match m s with
  | (inl e, s') => (inl e, s')
  | (inr a, s') => k a s'
  end.

Definition raise {A : Type} (e : exn) : M A := λ s, (inl e, s).

Definition of_option {A : Type} (o : option A) : M A :=
  match o with
  | Some a => mret a
  | None => raise Stuck
  end.

(** *** Objects *)

Definition new_object (o : URLShortener) : M ref := λ s,
  (inr (length (objects s)), mkSession (db s) (objects s ++ [o]) (pending s)).

Definition getattr {A : Type} (r : ref) (field : URLShortener → A) : M A := λ s,
  match objects s !! r with
  | Some o => (inr (field o), s)
  | None => (inl Stuck, s)
  end.

Definition setattr (r : ref) (update : URLShortener → URLShortener) : M unit := λ s,
  match objects s !! r with
  | Some o => (inr tt, mkSession (db s) (<[r := update o]> (objects s)) (pending s))
  | None => (inl Stuck, s)
  end.

(** *** The unit of work *)

(** SQLite gives a new row of an [INTEGER PRIMARY KEY] table one more than
    the largest key in use, and 1 in an empty table (the keys of this table
    are all assigned that way, so they are positive). *)
Definition max_id (rows : list URLShortener) : Z :=
  foldr (λ row acc, Z.max (default 0 (id row)) acc) 0 rows.

Definition next_id (rows : list URLShortener) : Z := max_id rows + 1.

(** [UPDATE urlshortener SET ... WHERE id = i], with the attribute values of
    the object [o]. *)
Definition update_rows (i : Z) (o : URLShortener) (rows : list URLShortener)
  : list URLShortener :=
  (λ row, if decide (id row = Some i) then o else row) <$> rows.

(** Flushing one object. An object without primary key is INSERTed: the
    unique index on [shorten_url] rejects a value that a row already holds,
    otherwise the row is appended and the object receives its key. An object
    with a primary key is UPDATEd: its attribute values are written to the
    row of that key. *)
Definition flush_one (r : ref) (st : list URLShortener * list URLShortener)
  : exn + (list URLShortener * list URLShortener) :=
  let '(rows, objs) := st in
  match objs !! r with
  | None => inl Stuck
  | Some o =>
      match id o with
      | None =>
          if decide (shorten_url o ∈ shorten_url <$> rows) then inl IntegrityError
          else
            let o' := set_id (Some (next_id rows)) o in
            inr (rows ++ [o'], <[r := o']> objs)
      | Some i =>
          inr (update_rows i o rows, objs)
      end
  end.

Fixpoint flush (rs : list ref) (st : list URLShortener * list URLShortener)
  : exn + (list URLShortener * list URLShortener) :=
  match rs with
  | [] => inr st
  | r :: rs' =>
      match flush_one r st with
      | inl e => inl e
      | inr st' => flush rs' st'
      end
  end.

(** [session.add(obj)] *)
Definition session_add (r : ref) : M unit := λ s,
  (inr tt, mkSession (db s) (objects s) (pending s ++ [r])).

(** [session.commit()]: flush what is pending in one transaction; when a
    statement fails the transaction is rolled back, so the table keeps the
    rows it had, and the error is raised. *)
Definition session_commit : M unit := λ s,
  match flush (pending s) (db s, objects s) with
  | inl e => (inl e, s)
  | inr (rows, objs) => (inr tt, mkSession rows objs [])
  end.

(** [session.refresh(obj)]: reload the attributes from the row of the
    object's primary key. *)
Definition session_refresh (r : ref) : M unit := λ s,
  match objects s !! r with
  | None => (inl Stuck, s)
  | Some o =>
      match list_find (λ row, id row = id o) (db s) with
      | Some (_, row) =>
          (inr tt, mkSession (db s) (<[r := row]> (objects s)) (pending s))
      | None => (inl InvalidRequestError, s)
      end
  end.

(** [session.exec(select(URLShortener).where(URLShortener.shorten_url == code)).first()]:
    the first matching row, loaded as an object of the session, or [None]. *)
Definition exec_where_shorten_url_first (code : string) : M (option ref) := λ s,
  match list_find (λ row, shorten_url row = code) (db s) with
  | None => (inr None, s)
  | Some (_, row) =>
      (inr (Some (length (objects s))),
       mkSession (db s) (objects s ++ [row]) (pending s))
  end.

(** [session.exec(select(URLShortener)).all()]: every row, loaded as objects. *)
Definition exec_all : M (list ref) := λ s,
  (inr (seq (length (objects s)) (length (db s))),
   mkSession (db s) (objects s ++ db s) (pending s)).

(** [jsonable_encoder] of a model instance reads its fields. *)
Definition jsonable_encoder (r : ref) : M URLShortener := getattr r (λ o, o).

Fixpoint jsonable_encoder_list (rs : list ref) : M (list URLShortener) :=
  match rs with
  | [] => mret []
  | r :: rs' =>
      o ← jsonable_encoder r;
      os ← jsonable_encoder_list rs';
      mret (o :: os)
  end.

(** ** The methods of [URLShortener] *)

(** [generate_short_code(self, session)]; [rnd] is the randomness [uuid4]
    consumes. *)
Definition generate_short_code (self : ref) (rnd : Z) : M string :=
  let uuid_code := uuid4_int rnd in
  code ← of_option (encode uuid_code);
  setattr self (set_shorten_url (substring 0 7 code));;
  session_add self;;
  session_commit;;
  session_refresh self;;
  getattr self shorten_url.

(** [lookup_url] returns either the integer 0 or a string. *)
Inductive pyval : Type :=
| PyInt (n : Z)
| PyStr (s : string).

#[global] Instance pyval_eq_dec : EqDecision pyval.
Proof. solve_decision. Defined.

(** Python truth value: 0 and the empty string are false. *)
Definition truthy (v : pyval) : bool :=
  match v with
  | PyInt n => negb (n =? 0)
  | PyStr s => negb (String.eqb s "")
  end.

(** [lookup_url(cls, session, short_code)] *)
Definition lookup_url (short_code : string) : M pyval :=
  result ← exec_where_shorten_url_first short_code;
  match result with
  | None => mret (PyInt 0)
  | Some result =>
      n ← getattr result click_count;
      setattr result (set_click_count (n + 1));;
      session_add result;;
      session_commit;;
      session_refresh result;;
      url ← getattr result original_url;
      mret (PyStr url)
  end.

(** ** The HTTP handlers *)

(** [class ShortenRequest(BaseModel)]: the validated body of POST /shorten/.
    The schema asks for a string and nothing more. *)
Record ShortenRequest : Type := mkShortenRequest {
  req_original_url : string
}.

(** The dictionary returned by POST /shorten/. *)
Record ShortenResponse : Type := mkShortenResponse {
  resp_original_url : string;
  resp_shorten_url : string
}.

Record RedirectResponse : Type := mkRedirectResponse {
  url : pyval
}.

(** POST /shorten/: the handler [shorten_url] of the source, named
    [shorten_url_endpoint] here because the field of the model has that name. *)
Definition shorten_url_endpoint (request : ShortenRequest) (rnd : Z) : M ShortenResponse :=
  url ← new_object (new_URLShortener (req_original_url request));
  short_code ← generate_short_code url rnd;
  mret (mkShortenResponse (req_original_url request) short_code).

(** GET /{short_code} *)
Definition redirect (short_code : string) : M RedirectResponse :=
  original_url ← lookup_url short_code;
  if truthy original_url then mret (mkRedirectResponse original_url)
  else raise (HTTPException 404 "URL not found").

(** GET /stats/ *)
Definition get_all_rows : M (list URLShortener) :=
  result ← exec_all;
  jsonable_encoder_list result.

(** GET /stats/{short_code} *)
Definition get_stats (short_code : string) : M URLShortener :=
  result ← exec_where_shorten_url_first short_code;
  match result with
  | None => raise (HTTPException 404 "URL not found")
  | Some result => jsonable_encoder result
  end.

(** [get_session]: every request runs in a session of its own, opened on the
    table as committed so far; what the request leaves behind is what it
    committed. *)
Definition run_request {A : Type} (handler : M A) (rows : list URLShortener)
  : (exn + A) * list URLShortener :=
  let '(r, s) := handler (mkSession rows [] []) in (r, db s).

(** What the client sees of an outcome: a handler that returns answers with
    the success status of its route; an [HTTPException] is turned into a
    response with its status code; any other exception escapes the
    application and the server answers 500 Internal Server Error. *)
Definition status_of {A : Type} (success_status : Z) (r : exn + A) : Z :=
  match r with
  | inr _ => success_status
  | inl (HTTPException status _) => status
  | inl _ => 500
  end.

(** An exception that leaves a handler is taken care of by the application
    only when it is an [HTTPException]: the program has no [try] statement
    and registers no exception handler. *)
Definition uncaught {A : Type} (r : exn + A) : bool :=
  match r with
  | inl (HTTPException _ _) => false
  | inl _ => true
  | inr _ => false
  end.

(** ** Invariants and requests *)

(** The primary key: every row has one, and no two rows share it. *)
Definition primary_key_ok (rows : list URLShortener) : Prop :=
  NoDup (id <$> rows) ∧ Forall (λ row, is_Some (id row)) rows.

(** The unique index on [shorten_url]. *)
Definition unique_short_codes (rows : list URLShortener) : Prop :=
  NoDup (shorten_url <$> rows).

Definition urls_nonempty (rows : list URLShortener) : Prop :=
  Forall (λ row, original_url row ≠ ""%string) rows.

(** Every row of [rows] is still there in [rows'], at its place, with the
    same key, URL and code, and a click count that is not smaller. *)
Definition click_counts_grow (rows rows' : list URLShortener) : Prop :=
  ∀ (i : nat) (row : URLShortener), rows !! i = Some row →
    ∃ row', rows' !! i = Some row' ∧ id row' = id row ∧
            original_url row' = original_url row ∧
            shorten_url row' = shorten_url row ∧
            click_count row ≤ click_count row'.

(** The four routes that touch the table. *)
Inductive request : Type :=
| POST_shorten (body : ShortenRequest) (rnd : Z)
| GET_redirect (short_code : string)
| GET_stats_all
| GET_stats (short_code : string).

(** The table after a request. *)
Definition serve (rq : request) (rows : list URLShortener) : list URLShortener :=
  match rq with
  | POST_shorten body rnd => (run_request (shorten_url_endpoint body rnd) rows).2
  | GET_redirect short_code => (run_request (redirect short_code) rows).2
  | GET_stats_all => (run_request get_all_rows rows).2
  | GET_stats short_code => (run_request (get_stats short_code) rows).2
  end.

Definition exception_of {A : Type} (r : exn + A) : option exn :=
  match r with
  | inl e => Some e
  | inr _ => None
  end.

(** The exception a request ends with, if any. *)
Definition raised (rq : request) (rows : list URLShortener) : option exn :=
  match rq with
  | POST_shorten body rnd =>
      exception_of (run_request (shorten_url_endpoint body rnd) rows).1
  | GET_redirect short_code => exception_of (run_request (redirect short_code) rows).1
  | GET_stats_all => exception_of (run_request get_all_rows rows).1
  | GET_stats short_code => exception_of (run_request (get_stats short_code) rows).1
  end.

(** [lookup_url] called [N] times in a row, each call in a request of its own. *)
Fixpoint lookup_n (N : nat) (short_code : string) (rows : list URLShortener)
  : list URLShortener :=
  match N with
  | O => rows
  | S N' => lookup_n N' short_code (run_request (lookup_url short_code) rows).2
  end.

(** A character of the base-62 alphabet: a digit, an upper-case or a
    lower-case letter. *)
Definition base62_char (ch : ascii) : Prop :=
  ch ∈ list_ascii_of_string CHARSET_DEFAULT.



(** ** Further definitions used in the statements *)

(** The digits that the loop of [encode] produces for [n]: empty for
    [n <= 0], where [encode] then answers "0". *)
Definition digits_of (n : Z) : list ascii :=
  default [] (encode_loop (encode_fuel n) n []).

(** [charset.index(ch)]: the value of a base-62 digit. *)
Definition digit_value (ch : ascii) : Z :=
  match list_find (λ c, c = ch) (list_ascii_of_string CHARSET_DEFAULT) with
  | Some (i, _) => Z.of_nat i
  | None => 0
  end.

(** The number that a string of base-62 digits denotes, most significant
    digit first. *)
Definition base62_value (s : string) : Z :=
  foldl (λ acc ch, acc * BASE + digit_value ch) 0 (list_ascii_of_string s).

(** The table after a sequence of requests, served one after the other. *)
Definition serve_from (rows : list URLShortener) (rqs : list request)
  : list URLShortener :=
  foldl (λ rows rq, serve rq rows) rows rqs.

Definition is_redirect_to (code : string) (rq : request) : bool :=
  match rq with
  | GET_redirect short_code => bool_decide (short_code = code)
  | _ => false
  end.

(** How many of the requests are GET /{code}. *)
Definition count_redirects (code : string) (rqs : list request) : Z :=
  Z.of_nat (length (filter (λ rq, is_redirect_to code rq = true) rqs)).

(** ** Proof tools *)

(** Closed decidable facts are settled by evaluation. *)
Ltac by_evaluation := apply (bool_decide_unpack _); vm_compute; exact I.

(** Running a handler: expose the binds of the session computation. *)
Ltac run_session := unfold mbind, M_bind, mret, M_ret; simpl.

Create HintDb table discriminated.

(** ** Facts about the library code *)

Example encode_0 : encode 0 = Some "0"%string.
Proof. reflexivity. Qed.

Example encode_61 : encode 61 = Some "z"%string.
Proof. reflexivity. Qed.

Example encode_62 : encode 62 = Some "10"%string.
Proof. reflexivity. Qed.

Example encode_negative : encode (-5) = Some "0"%string.
Proof. reflexivity. Qed.

Lemma charset_length : String.length CHARSET_DEFAULT = 62%nat.
Proof. reflexivity. Qed.


Lemma charset_at_in_charset (r : Z) :
  0 ≤ r < BASE → base62_char (charset_at r).
Proof.
  intros Hr.
  assert (Hall : Forall (λ k, base62_char (charset_at (Z.of_nat k))) (seq 0 62))
    by by_evaluation.
  rewrite Forall_forall in Hall.
  replace r with (Z.of_nat (Z.to_nat r)) by lia.
  apply Hall, elem_of_seq. unfold BASE in Hr. lia.
Qed.

Lemma div_eucl_BASE (n q r : Z) :
  Z.div_eucl n BASE = (q, r) → q = n / BASE ∧ r = n mod BASE.
Proof.
  intros E. unfold Z.div, Z.modulo. by rewrite E.
Qed.

(** The loop ends within [fuel] iterations when [n < 2^fuel]. *)
Lemma encode_loop_total (fuel : nat) (n : Z) (chs : list ascii) :
  n < 2 ^ Z.of_nat fuel → is_Some (encode_loop fuel n chs).
Proof.
  revert n chs. induction fuel as [|fuel IH]; intros n chs Hn; simpl.
  - destruct (Z.gtb_spec n 0); [|eauto]. simpl in Hn. lia.
  - destruct (Z.gtb_spec n 0); [|eauto].
    destruct (Z.div_eucl n BASE) as [q r] eqn:E.
    apply div_eucl_BASE in E as [-> _]. apply IH.
    rewrite Nat2Z.inj_succ, Z.pow_succ_r in Hn by lia.
    unfold BASE. apply Z.div_lt_upper_bound; lia.
Qed.

(** [encode] returns on every integer. *)
Lemma encode_total (n : Z) : is_Some (encode n).
Proof.
  unfold encode.
  destruct (encode_loop_total (encode_fuel n) n []) as [chs ->].
  - unfold encode_fuel. destruct (Z.le_gt_cases n 0) as [?|Hpos].
    + pose proof (Z.pow_pos_nonneg 2 (Z.of_nat (S (Z.to_nat (Z.log2 n))))). lia.
    + pose proof (Z.log2_nonneg n).
      rewrite Nat2Z.inj_succ, Z2Nat.id by done.
      apply Z.log2_spec. lia.
  - destruct chs; eauto.
Qed.

(** What the loop returns: new digits in front of the accumulator, all from
    the alphabet, and more than [k] of them when [n] is at least [62^k]. *)
Lemma encode_loop_digits (fuel : nat) (n : Z) (chs res : list ascii) :
  encode_loop fuel n chs = Some res →
  ∃ pre, res = pre ++ chs ∧ Forall base62_char pre ∧
         ∀ k : nat, BASE ^ Z.of_nat k ≤ n → (k < length pre)%nat.
Proof.
  assert (Hdone : ∀ m, ¬ 0 < m → ∀ k : nat, BASE ^ Z.of_nat k ≤ m → (k < 0)%nat).
  { intros m Hm k Hk.
    pose proof (Z.pow_pos_nonneg BASE (Z.of_nat k)). unfold BASE in *. lia. }
  revert n chs res. induction fuel as [|fuel IH]; intros n chs res; simpl.
  - destruct (Z.gtb_spec n 0); [done|]. intros [= <-].
    exists []. split_and!; [done|constructor|]. apply Hdone. lia.
  - destruct (Z.gtb_spec n 0) as [Hpos|].
    + destruct (Z.div_eucl n BASE) as [q r] eqn:E.
      apply div_eucl_BASE in E as [-> ->]. intros Hrec.
      apply IH in Hrec as (pre & -> & Hpre & Hlen).
      exists (pre ++ [charset_at (n mod BASE)]). split_and!.
      * by rewrite <- app_assoc.
      * apply Forall_app. split; [done|]. constructor; [|constructor].
        by apply charset_at_in_charset, Z.mod_pos_bound.
      * intros [|k] Hk; rewrite length_app; simpl; [lia|].
        assert (k < length pre)%nat; [|lia]. apply Hlen.
        rewrite Nat2Z.inj_succ, Z.pow_succ_r in Hk by lia.
        apply Z.div_le_lower_bound; [done|lia].
    + intros [= <-]. exists []. split_and!; [done|constructor|].
      apply Hdone. lia.
Qed.

Lemma string_of_list_ascii_length (l : list ascii) :
  String.length (string_of_list_ascii l) = length l.
Proof. induction l; simpl; congruence. Qed.


(** The slice [s[:m]]. *)
Lemma substring_0_chars (m : nat) (s : string) :
  list_ascii_of_string (substring 0 m s) = take m (list_ascii_of_string s).
Proof.
  revert m. induction s as [|ch s IH]; intros [|m]; simpl; try done.
  by rewrite IH.
Qed.


Lemma bits_above (x n k : Z) :
  0 ≤ x < 2 ^ n → n ≤ k → Z.testbit x k = false.
Proof.
  intros [Hx Hn] Hk. destruct (Z.eq_dec x 0) as [->|]; [apply Z.bits_0|].
  apply Z.bits_above_log2; [done|].
  assert (Z.log2 x < n); [|lia]. apply Z.log2_lt_pow2; lia.
Qed.

Lemma below_pow2 (x n : Z) :
  0 ≤ n → 0 ≤ x → (∀ k, n ≤ k → Z.testbit x k = false) → x < 2 ^ n.
Proof.
  intros Hn Hx Hbits. destruct (Z.eq_dec x 0) as [->|].
  { by apply Z.pow_pos_nonneg. }
  assert (Hpos : 0 < x) by lia.
  apply Z.log2_lt_pow2; [done|].
  destruct (Z.le_gt_cases n (Z.log2 x)) as [Hle|]; [|done].
  apply Hbits in Hle. by rewrite Z.bit_log2 in Hle.
Qed.

(** A [uuid4] integer fits in 128 bits, and its version bits put it at or
    above [2^78]. *)
Lemma uuid4_int_range (rnd : Z) :
  0 ≤ rnd < 2 ^ 128 → 2 ^ 78 ≤ uuid4_int rnd < 2 ^ 128.
Proof.
  intros Hrnd. unfold uuid4_int.
  set (a := Z.land (Z.lor (Z.land rnd _) _) _).
  assert (Ha : 0 ≤ a).
  { unfold a. apply Z.land_nonneg. left. apply Z.lor_nonneg. split; [|done].
    apply Z.land_nonneg. left. lia. }
  assert (Hb : 0 ≤ Z.shiftl 4 76) by done.
  pose proof (Z.log2_lor a _ Ha Hb) as Hlog.
  assert (Hnn : 0 ≤ Z.lor a (Z.shiftl 4 76)) by by apply Z.lor_nonneg.
  assert (Hpos : 0 < Z.lor a (Z.shiftl 4 76)).
  { destruct (Z.eq_dec (Z.lor a (Z.shiftl 4 76)) 0) as [E|]; [|lia].
    by apply Z.lor_eq_0_iff in E as [_ E]. }
  split.
  - pose proof (Z.log2_spec _ Hpos) as [Hl _].
    etrans; [|exact Hl]. apply Z.pow_le_mono_r; [done|].
    rewrite Hlog. change (Z.log2 (Z.shiftl 4 76)) with 78. lia.
  - apply below_pow2; [done|done|]. intros k Hk. unfold a.
    rewrite !Z.lor_spec, !Z.land_spec, Z.lor_spec, Z.land_spec.
    by rewrite (bits_above rnd 128 k), (bits_above (Z.shiftl 32768 48) 128 k),
      (bits_above (Z.shiftl 4 76) 128 k).
Qed.

(** *** The digits of [encode] *)

Lemma encode_loop_fuel_irrelevant (fuel : nat) (n : Z) (chs res : list ascii) :
  encode_loop fuel n chs = Some res →
  ∃ pre, res = pre ++ chs ∧
    ∀ fuel' chs' res', encode_loop fuel' n chs' = Some res' → res' = pre ++ chs'.
Proof.
  revert n chs res. induction fuel as [|fuel IH]; intros n chs res; simpl.
  - destruct (Z.gtb_spec n 0) as [Hpos|Hle]; [done|]. intros [= <-].
    exists []. split; [done|]. intros [|fuel'] chs' res'; simpl;
      destruct (Z.gtb_spec n 0); try lia; by intros [= <-].
  - destruct (Z.gtb_spec n 0) as [Hpos|Hle].
    + destruct (Z.div_eucl n BASE) as [q r] eqn:E. intros Hrec.
      apply IH in Hrec as (pre & -> & Hany).
      exists (pre ++ [charset_at r]). split; [by rewrite <- app_assoc|].
      intros [|fuel'] chs' res'; simpl; destruct (Z.gtb_spec n 0); try lia; [done|].
      rewrite E. intros Hrec'. apply Hany in Hrec' as ->. by rewrite <- app_assoc.
    + intros [= <-]. exists []. split; [done|].
      intros [|fuel'] chs' res'; simpl;
        destruct (Z.gtb_spec n 0); try lia; by intros [= <-].
Qed.

Lemma encode_loop_digits_of (n : Z) :
  encode_loop (encode_fuel n) n [] = Some (digits_of n).
Proof.
  unfold digits_of. destruct (encode_loop_total (encode_fuel n) n []) as [chs ->];
    [|done].
  unfold encode_fuel. destruct (Z.le_gt_cases n 0) as [?|Hpos].
  - pose proof (Z.pow_pos_nonneg 2 (Z.of_nat (S (Z.to_nat (Z.log2 n))))). lia.
  - pose proof (Z.log2_nonneg n).
    rewrite Nat2Z.inj_succ, Z2Nat.id by done. apply Z.log2_spec. lia.
Qed.

Lemma encode_digits_of (n : Z) :
  encode n =
    Some (match digits_of n with
          | [] => "0"%string
          | chs => string_of_list_ascii chs
          end).
Proof.
  unfold encode. rewrite encode_loop_digits_of. by destruct (digits_of n).
Qed.

Lemma digits_of_nonpos (n : Z) : n ≤ 0 → digits_of n = [].
Proof.
  intros Hn. unfold digits_of, encode_fuel. simpl.
  by destruct (Z.gtb_spec n 0); [lia|].
Qed.

(** One turn of the loop: the last digit is the remainder, the digits before
    it are those of the quotient. *)
Lemma digits_of_step (n : Z) :
  0 < n → digits_of n = digits_of (n / BASE) ++ [charset_at (n mod BASE)].
Proof.
  intros Hpos.
  pose proof (encode_loop_digits_of (n / BASE)) as Hq.
  apply encode_loop_fuel_irrelevant in Hq as (pre & Hpre & Hany).
  rewrite app_nil_r in Hpre. subst pre.
  pose proof (encode_loop_digits_of n) as Hn.
  unfold encode_fuel in Hn. simpl in Hn.
  destruct (Z.gtb_spec n 0); [|lia].
  destruct (Z.div_eucl n BASE) as [q r] eqn:E.
  apply div_eucl_BASE in E as [-> ->]. by apply Hany in Hn.
Qed.

(** Induction along the loop: from the quotient to the number. *)
Lemma digits_ind (P : Z → Prop) :
  (∀ n, n ≤ 0 → P n) → (∀ n, 0 < n → P (n / BASE) → P n) → ∀ n, P n.
Proof.
  intros Hbase Hstep.
  assert (Hk : ∀ (k : nat) n, n < BASE ^ Z.of_nat k → P n).
  { induction k as [|k IH]; intros n Hn.
    - apply Hbase. simpl in Hn. lia.
    - destruct (Z.le_gt_cases n 0) as [?|Hpos]; [by apply Hbase|].
      apply Hstep; [done|]. apply IH.
      rewrite Nat2Z.inj_succ, Z.pow_succ_r in Hn by lia.
      apply Z.div_lt_upper_bound; unfold BASE in *; lia. }
  intros n. destruct (Z.le_gt_cases n 0) as [?|Hpos]; [by apply Hbase|].
  apply (Hk (Z.to_nat n)). rewrite Z2Nat.id by lia.
  apply Z.pow_gt_lin_r; unfold BASE; lia.
Qed.

Lemma digit_value_charset_at (r : Z) :
  0 ≤ r < BASE → digit_value (charset_at r) = r.
Proof.
  intros Hr.
  assert (Hall : Forall (λ k, digit_value (charset_at (Z.of_nat k)) = Z.of_nat k)
                   (seq 0 62)) by by_evaluation.
  rewrite Forall_forall in Hall.
  rewrite <- (Z2Nat.id r) by lia.
  apply Hall, elem_of_seq. unfold BASE in Hr. lia.
Qed.

Lemma digits_of_value (n : Z) :
  0 ≤ n → foldl (λ acc ch, acc * BASE + digit_value ch) 0 (digits_of n) = n.
Proof.
  induction n as [n Hn|n Hpos IH] using digits_ind; intros Hnn.
  - rewrite digits_of_nonpos by done. simpl. lia.
  - rewrite digits_of_step, foldl_snoc by done.
    rewrite IH by (apply Z.div_pos; unfold BASE; lia).
    rewrite digit_value_charset_at by (apply Z.mod_pos_bound; done).
    pose proof (Z.div_mod n BASE). unfold BASE in *. lia.
Qed.

Lemma digits_of_length_lower (n : Z) (k : nat) :
  BASE ^ Z.of_nat k ≤ n → (k < length (digits_of n))%nat.
Proof.
  intros Hk. pose proof (encode_loop_digits_of n) as Hn.
  apply encode_loop_digits in Hn as (pre & Hpre & _ & Hlen).
  rewrite app_nil_r in Hpre. subst pre. by apply Hlen.
Qed.

Lemma digits_of_length_upper (n : Z) (k : nat) :
  n < BASE ^ Z.of_nat k → (length (digits_of n) ≤ k)%nat.
Proof.
  revert k. induction n as [n Hn|n Hpos IH] using digits_ind; intros k Hk.
  - rewrite digits_of_nonpos by done. simpl. lia.
  - rewrite digits_of_step, length_app by done. simpl.
    destruct k as [|k]; [simpl in Hk; lia|].
    assert (length (digits_of (n / BASE)) ≤ k)%nat; [|lia]. apply IH.
    rewrite Nat2Z.inj_succ, Z.pow_succ_r in Hk by lia.
    apply Z.div_lt_upper_bound; unfold BASE in *; lia.
Qed.

(** The first digit of a positive number is not the zero digit. *)
Lemma digits_of_head (n : Z) :
  0 < n → ∃ d rest, digits_of n = charset_at d :: rest ∧ 1 ≤ d < BASE.
Proof.
  induction n as [n Hn|n Hpos IH] using digits_ind; intros Hnn; [lia|].
  rewrite digits_of_step by done.
  destruct (Z.le_gt_cases (n / BASE) 0) as [Hq|Hq].
  - rewrite digits_of_nonpos by done. simpl. exists (n mod BASE), [].
    split; [done|].
    assert (n / BASE = 0)
      by (pose proof (Z.div_pos n BASE); unfold BASE in *; lia).
    pose proof (Z.div_mod n BASE). pose proof (Z.mod_pos_bound n BASE).
    unfold BASE in *. lia.
  - destruct (IH Hq) as (d & rest & -> & Hd).
    exists d, (rest ++ [charset_at (n mod BASE)]). by split.
Qed.

Lemma charset_at_not_zero (d : Z) :
  1 ≤ d < BASE → charset_at d ≠ "0"%char.
Proof.
  intros Hd.
  assert (Hall : Forall (λ k, charset_at (Z.of_nat k) ≠ "0"%char) (seq 1 61))
    by by_evaluation.
  rewrite Forall_forall in Hall.
  rewrite <- (Z2Nat.id d) by lia.
  apply Hall, elem_of_seq. unfold BASE in Hd. lia.
Qed.

(** Low-order digits do not reach the first seven. *)
Lemma digits_of_take (n : Z) (k : nat) :
  BASE ^ 6 ≤ n / BASE ^ Z.of_nat k →
  take 7 (digits_of n) = take 7 (digits_of (n / BASE ^ Z.of_nat k)).
Proof.
  revert n. induction k as [|k IH]; intros n Hn.
  - simpl. by rewrite Z.div_1_r.
  - rewrite Nat2Z.inj_succ, Z.pow_succ_r in * by lia.
    assert (Hb : 0 < BASE ^ Z.of_nat k) by (apply Z.pow_pos_nonneg; unfold BASE; lia).
    rewrite <- Z.div_div in * by (unfold BASE; lia).
    assert (Hq : BASE ^ 6 ≤ n / BASE).
    { etrans; [exact Hn|].
      apply Z.div_le_upper_bound; [done|].
      assert (0 ≤ n / BASE); [|nia].
      destruct (Z.le_gt_cases 0 (n / BASE)); [done|].
      assert (n / BASE / BASE ^ Z.of_nat k < 0)
        by (apply Z.div_lt_upper_bound; lia).
      unfold BASE in *. lia. }
    assert (Hpos : 0 < n).
    { destruct (Z.le_gt_cases n 0); [|done].
      assert (n / BASE ≤ 0) by (apply Z.div_le_upper_bound; unfold BASE; lia).
      unfold BASE in *. lia. }
    rewrite (digits_of_step n) by done.
    rewrite take_app_le by (pose proof (digits_of_length_lower (n / BASE) 6 Hq); lia).
    by apply IH.
Qed.

Lemma encode_chars (n : Z) (s : string) :
  0 < n → encode n = Some s → list_ascii_of_string s = digits_of n.
Proof.
  intros Hpos. rewrite encode_digits_of. intros [= <-].
  destruct (digits_of_head n Hpos) as (d & rest & Hd & _). rewrite Hd.
  apply (list_ascii_of_string_of_list_ascii (charset_at d :: rest)).
Qed.

(** *** The bits of a [uuid4] integer *)


(** ** Facts about the session and the handlers *)

Lemma max_id_ge (rows : list URLShortener) (row : URLShortener) (i : Z) :
  row ∈ rows → id row = Some i → i ≤ max_id rows.
Proof.
  induction rows as [|r rows IH]; [by intros ?%elem_of_nil|].
  intros [->|Hin]%elem_of_cons Hid; simpl.
  - rewrite Hid. simpl. lia.
  - specialize (IH Hin Hid). lia.
Qed.

Lemma next_id_fresh (rows : list URLShortener) :
  list_find (λ row, id row = Some (next_id rows)) rows = None.
Proof.
  apply list_find_None, Forall_forall. intros row Hin Hid.
  pose proof (max_id_ge rows row _ Hin Hid). unfold next_id in *. lia.
Qed.

(** POST /shorten/ on any table: the unique index decides. *)
Lemma shorten_url_endpoint_run (request : ShortenRequest) (rnd : Z)
    (rows : list URLShortener) (digits : string) :
  encode (uuid4_int rnd) = Some digits →
  run_request (shorten_url_endpoint request rnd) rows =
    let code := substring 0 7 digits in
    if decide (code ∈ shorten_url <$> rows) then (inl IntegrityError, rows)
    else (inr (mkShortenResponse (req_original_url request) code),
          rows ++ [mkURLShortener (Some (next_id rows)) (req_original_url request) code 0]).
Proof.
  intros Henc.
  unfold run_request, shorten_url_endpoint, generate_short_code.
  run_session. rewrite Henc. simpl.
  unfold session_commit. simpl. case_decide; [done|].
  unfold session_refresh. simpl.
  rewrite list_find_app_r by apply next_id_fresh. simpl.
  by rewrite decide_True.
Qed.

(** After the UPDATE, the first row with key [k] is the object written. *)
Lemma update_rows_find (k : Z) (o row : URLShortener) (rows : list URLShortener) :
  row ∈ rows → id row = Some k → id o = Some k →
  ∃ j, list_find (λ r, id r = Some k) (update_rows k o rows) = Some (j, o).
Proof.
  intros Hin Hrow Ho.
  destruct (list_find (λ r, id r = Some k) (update_rows k o rows)) as [[j x]|] eqn:E.
  - exists j. do 2 f_equal.
    apply list_find_Some in E as (Hx%list_elem_of_lookup_2 & Hid & _).
    unfold update_rows in Hx. apply list_elem_of_fmap in Hx as (r & -> & _).
    by case_decide.
  - exfalso. apply list_find_None in E. rewrite Forall_forall in E.
    apply (E o); [|done]. unfold update_rows.
    apply list_elem_of_fmap. exists row. by rewrite decide_True.
Qed.

(** [lookup_url] on any table. A matching row without primary key cannot be
    updated; no table that satisfies [primary_key_ok] has one. *)
Lemma lookup_url_run (code : string) (rows : list URLShortener) :
  run_request (lookup_url code) rows =
    match list_find (λ row, shorten_url row = code) rows with
    | None => (inr (PyInt 0), rows)
    | Some (_, row) =>
        match id row with
        | Some k =>
            (inr (PyStr (original_url row)),
             update_rows k (set_click_count (click_count row + 1) row) rows)
        | None => (inl IntegrityError, rows)
        end
    end.
Proof.
  unfold run_request, lookup_url, exec_where_shorten_url_first. run_session.
  destruct (list_find _ rows) as [[i row]|] eqn:Hfind; [|done]. simpl.
  apply list_find_Some in Hfind as (Hin%list_elem_of_lookup_2 & Hcode & _).
  unfold session_commit. simpl.
  destruct (id row) as [k|] eqn:Hid; simpl.
  - unfold session_refresh. simpl. rewrite Hid.
    by destruct (update_rows_find k (set_click_count (click_count row + 1) row) row rows)
      as [j ->].
  - rewrite decide_True; [done|].
    apply list_elem_of_fmap. by exists row.
Qed.

Lemma redirect_run (code : string) (rows : list URLShortener) :
  run_request (redirect code) rows =
    match run_request (lookup_url code) rows with
    | (inl e, rows') => (inl e, rows')
    | (inr v, rows') =>
        if truthy v then (inr (mkRedirectResponse v), rows')
        else (inl (HTTPException 404 "URL not found"), rows')
    end.
Proof.
  unfold run_request, redirect, mbind, M_bind.
  destruct (lookup_url code _) as [[e|v] s]; [done|].
  by destruct (truthy v).
Qed.

Lemma get_stats_run (code : string) (rows : list URLShortener) :
  run_request (get_stats code) rows =
    match list_find (λ row, shorten_url row = code) rows with
    | None => (inl (HTTPException 404 "URL not found"), rows)
    | Some (_, row) => (inr row, rows)
    end.
Proof.
  unfold run_request, get_stats, exec_where_shorten_url_first. run_session.
  by destruct (list_find _ rows) as [[i row]|].
Qed.

Lemma jsonable_encoder_list_seq (s : Session) (pre rows : list URLShortener) :
  objects s = pre ++ rows →
  jsonable_encoder_list (seq (length pre) (length rows)) s = (inr rows, s).
Proof.
  revert pre. induction rows as [|row rows IH]; intros pre Hobj; [done|].
  simpl. unfold mbind, M_bind, jsonable_encoder, getattr.
  rewrite Hobj, list_lookup_middle by done.
  replace (S (length pre)) with (length (pre ++ [row]))
    by (rewrite length_app; simpl; lia).
  rewrite IH; [done|]. by rewrite <- app_assoc.
Qed.

Lemma get_all_rows_run (rows : list URLShortener) :
  run_request get_all_rows rows = (inr rows, rows).
Proof.
  unfold run_request, get_all_rows, exec_all, mbind, M_bind. simpl.
  pose proof (jsonable_encoder_list_seq (mkSession rows rows []) [] rows eq_refl) as H.
  simpl in H. by rewrite H.
Qed.

(** The model-only exception [Stuck] and [InvalidRequestError] are never the
    outcome of a request. *)
Lemma requests_raise_only (rq : request) (rows : list URLShortener) :
  raised rq rows ∈
    [None; Some IntegrityError; Some (HTTPException 404 "URL not found")].
Proof.
  destruct rq as [body rnd|code| |code]; simpl.
  - destruct (encode_total (uuid4_int rnd)) as [digits Henc].
    rewrite (shorten_url_endpoint_run _ _ _ digits Henc). simpl.
    case_decide; simpl; repeat constructor.
  - rewrite redirect_run, lookup_url_run.
    destruct (list_find _ rows) as [[i row]|]; simpl; [|repeat constructor].
    destruct (id row); simpl; [|repeat constructor].
    destruct (negb _); simpl; repeat constructor.
  - rewrite get_all_rows_run. repeat constructor.
  - rewrite get_stats_run.
    destruct (list_find _ rows) as [[i row]|]; simpl; repeat constructor.
Qed.

Lemma update_rows_insert (k : Z) (o row : URLShortener) (i : nat)
    (rows : list URLShortener) :
  NoDup (id <$> rows) → rows !! i = Some row → id row = Some k →
  update_rows k o rows = <[i := o]> rows.
Proof.
  intros Hnd Hi Hid. apply list_eq. intros j. unfold update_rows.
  rewrite list_lookup_fmap. destruct (decide (i = j)) as [<-|Hne].
  - rewrite list_lookup_insert_eq by by eapply lookup_lt_Some.
    rewrite Hi. simpl. by rewrite decide_True.
  - rewrite list_lookup_insert_ne by done.
    destruct (rows !! j) as [r|] eqn:Hj; [|done]. simpl.
    rewrite decide_False; [done|]. intros Hr. apply Hne.
    apply (NoDup_lookup (id <$> rows) i j (Some k)); [done|..].
    + by rewrite list_lookup_fmap, Hi; simpl; rewrite Hid.
    + by rewrite list_lookup_fmap, Hj; simpl; rewrite Hr.
Qed.

Lemma fmap_insert_same {B : Type} (f : URLShortener → B) (i : nat)
    (row row' : URLShortener) (rows : list URLShortener) :
  rows !! i = Some row → f row' = f row → f <$> <[i := row']> rows = f <$> rows.
Proof.
  intros Hi Hf. rewrite list_fmap_insert, Hf.
  apply list_insert_id. by rewrite list_lookup_fmap, Hi.
Qed.

Lemma click_counts_grow_refl (rows : list URLShortener) :
  click_counts_grow rows rows.
Proof. intros i row Hi. exists row. split_and!; done || lia. Qed.

(** *** A row of a table that satisfies its constraints *)

Section ConstrainedTable.

Variable rows : list URLShortener.
Variable i : nat.
Variable row : URLShortener.

Hypothesis Hpk : primary_key_ok rows.
Hypothesis Hcodes : unique_short_codes rows.
Hypothesis Hrow : rows !! i = Some row.

Lemma list_find_unique :
  list_find (λ r, shorten_url r = shorten_url row) rows = Some (i, row).
Proof using Hcodes Hrow.
  apply list_find_Some. split_and!; [done..|].
  intros j r Hj Hlt Hcode.
  assert (j = i); [|lia].
  apply (NoDup_lookup (shorten_url <$> rows) j i (shorten_url row)); [done|..].
  - by rewrite list_lookup_fmap, Hj; simpl; rewrite Hcode.
  - by rewrite list_lookup_fmap, Hrow.
Qed.

(** A hit: the matching row, and only that row, gets one more click. *)
Lemma lookup_url_hit :
  run_request (lookup_url (shorten_url row)) rows =
    (inr (PyStr (original_url row)),
     <[i := set_click_count (click_count row + 1) row]> rows).
Proof using Hpk Hcodes Hrow.
  destruct Hpk as [Hnd Hsome]. rewrite lookup_url_run, list_find_unique.
  rewrite Forall_forall in Hsome.
  destruct (Hsome row) as [k Hk]; [by eapply list_elem_of_lookup_2|].
  rewrite Hk. by rewrite (update_rows_insert k _ row i).
Qed.

Lemma click_preserves_primary_key (n : Z) :
  primary_key_ok (<[i := set_click_count n row]> rows).
Proof using Hpk Hrow.
  destruct Hpk as [Hnd Hsome]. split.
  - by rewrite (fmap_insert_same id i row).
  - apply Forall_insert; [done|]. simpl.
    rewrite Forall_forall in Hsome. apply Hsome. by eapply list_elem_of_lookup_2.
Qed.

Lemma click_preserves_codes (n : Z) :
  unique_short_codes (<[i := set_click_count n row]> rows).
Proof using Hcodes Hrow.
  unfold unique_short_codes. by rewrite (fmap_insert_same shorten_url i row).
Qed.

Lemma click_preserves_urls (n : Z) :
  urls_nonempty rows → urls_nonempty (<[i := set_click_count n row]> rows).
Proof using Hrow.
  intros Hurls. apply Forall_insert; [done|]. simpl.
  unfold urls_nonempty in Hurls. rewrite Forall_forall in Hurls.
  apply Hurls. by eapply list_elem_of_lookup_2.
Qed.

Lemma click_grows :
  click_counts_grow rows (<[i := set_click_count (click_count row + 1) row]> rows).
Proof using Hrow.
  intros j r Hj. destruct (decide (i = j)) as [<-|Hne].
  - rewrite list_lookup_insert_eq by by eapply lookup_lt_Some.
    eexists. split; [done|]. simplify_eq. simpl. split_and!; done || lia.
  - rewrite list_lookup_insert_ne by done.
    exists r. split_and!; done || lia.
Qed.

(** A row appended by INSERT. *)
Lemma append_preserves_primary_key (new : URLShortener) :
  id new = Some (next_id rows) → primary_key_ok (rows ++ [new]).
Proof using Hpk.
  destruct Hpk as [Hnd Hsome]. intros Hid. split.
  - rewrite fmap_app. apply NoDup_app. split_and!; [done| |apply NoDup_singleton].
    intros x Hx Hx'. apply list_elem_of_fmap in Hx as (r & -> & Hr).
    simpl in Hx'. apply list_elem_of_singleton in Hx'. rewrite Hid in Hx'.
    pose proof (max_id_ge rows r _ Hr Hx'). unfold next_id in *. lia.
  - apply Forall_app. split; [done|]. constructor; [|constructor]. by rewrite Hid.
Qed.

Lemma append_preserves_codes (new : URLShortener) :
  shorten_url new ∉ shorten_url <$> rows → unique_short_codes (rows ++ [new]).
Proof using Hcodes.
  intros Hfresh. unfold unique_short_codes. rewrite fmap_app.
  apply NoDup_app. split_and!; [done| |apply NoDup_singleton].
  intros x Hx Hx'. simpl in Hx'. apply list_elem_of_singleton in Hx'. by subst.
Qed.

Lemma append_grows (new : URLShortener) :
  click_counts_grow rows (rows ++ [new]).
Proof using Type.
  intros j r Hj. exists r. rewrite lookup_app_l by by eapply lookup_lt_Some.
  split_and!; done || lia.
Qed.

End ConstrainedTable.

#[local] Hint Resolve click_counts_grow_refl click_preserves_primary_key
  click_preserves_codes click_preserves_urls click_grows
  append_preserves_primary_key append_preserves_codes append_grows : table.

Lemma set_click_count_twice (n m : Z) (row : URLShortener) :
  set_click_count n (set_click_count m row) = set_click_count n row.
Proof. done. Qed.

(** What a request can do to a table: nothing, one more click on one row,
    or one new row with a fresh key and a fresh code. *)
Lemma serve_cases (rq : request) (rows : list URLShortener) :
  primary_key_ok rows →
  serve rq rows = rows
  ∨ (∃ i row, rows !! i = Some row ∧
       serve rq rows = <[i := set_click_count (click_count row + 1) row]> rows)
  ∨ (∃ body rnd code, rq = POST_shorten body rnd ∧
       (code ∉ shorten_url <$> rows) ∧
       serve rq rows =
         rows ++ [mkURLShortener (Some (next_id rows)) (req_original_url body) code 0]).
Proof.
  intros [Hnd Hsome]. destruct rq as [body rnd|code| |code]; simpl.
  - destruct (encode_total (uuid4_int rnd)) as [digits Henc].
    rewrite (shorten_url_endpoint_run _ _ _ digits Henc). simpl.
    case_decide as Hfresh; simpl; [by left|]. right. right. by eexists _, _, _.
  - rewrite redirect_run, lookup_url_run.
    destruct (list_find _ rows) as [[i row]|] eqn:Hfind; simpl; [|by left].
    apply list_find_Some in Hfind as (Hi & Hcode & _).
    rewrite Forall_forall in Hsome.
    destruct (Hsome row) as [k Hk]; [by eapply list_elem_of_lookup_2|].
    rewrite Hk, (update_rows_insert k _ row i) by done.
    right. left. exists i, row. by destruct (truthy _).
  - rewrite get_all_rows_run. by left.
  - rewrite get_stats_run. left. by destruct (list_find _ rows) as [[i row]|].
Qed.

Lemma serve_preserves_constraints (rq : request) (rows : list URLShortener) :
  primary_key_ok rows ∧ unique_short_codes rows →
  primary_key_ok (serve rq rows) ∧ unique_short_codes (serve rq rows).
Proof.
  intros [Hpk Hcodes].
  destruct (serve_cases rq rows Hpk)
    as [->|[(i & row & Hi & ->)|(body & rnd & code & -> & Hfresh & ->)]];
    split; eauto with table.
Qed.


(** ** The claims *)

(** C1. A short code that no row holds: [lookup_url] returns its not-found
    value, the integer 0, as an ordinary result (nothing is raised), and the
    table is left exactly as it was, so no record is created; GET
    /{short_code} then answers 404, and leaves the table as it was too. *)
Theorem lookup_url_unknown_code (code : string) (rows : list URLShortener) :
  code ∉ shorten_url <$> rows →
  run_request (lookup_url code) rows = (inr (PyInt 0), rows) ∧
  run_request (redirect code) rows =
    (inl (HTTPException 404 "URL not found"), rows).
Proof.
  intros Hfresh.
  assert (Hrun : run_request (lookup_url code) rows = (inr (PyInt 0), rows)).
  { rewrite lookup_url_run.
    destruct (list_find _ rows) as [[i row]|] eqn:Hfind; [|done].
    apply list_find_Some in Hfind as (Hin%list_elem_of_lookup_2 & Hcode & _).
    destruct Hfresh. apply list_elem_of_fmap. by exists row. }
  split; [done|]. by rewrite redirect_run, Hrun.
Qed.

Lemma lookup_url_unknown_code_witness :
  let rows := [mkURLShortener (Some 1) "https://example.com" "1VgEh72" 3] in
  run_request (lookup_url "nosuch0") rows = (inr (PyInt 0), rows) ∧
  run_request (redirect "nosuch0") rows =
    (inl (HTTPException 404 "URL not found"), rows).
Proof.
  apply (lookup_url_unknown_code "nosuch0"
           [mkURLShortener (Some 1) "https://example.com" "1VgEh72" 3]).
  by_evaluation.
Defined.

(** C2. Round trip: when POST /shorten/ with a non-empty URL [u] succeeds and
    returns a code, [lookup_url] on that code right afterwards returns [u],
    and GET /{short_code} redirects to [u]. *)
Theorem create_then_lookup (u : string) (rnd : Z) (rows rows' : list URLShortener)
    (resp : ShortenResponse) :
  u ≠ ""%string →
  run_request (shorten_url_endpoint (mkShortenRequest u) rnd) rows = (inr resp, rows') →
  (run_request (lookup_url (resp_shorten_url resp)) rows').1 = inr (PyStr u) ∧
  (run_request (redirect (resp_shorten_url resp)) rows').1 =
    inr (mkRedirectResponse (PyStr u)).
Proof.
  intros Hu Hrun. destruct (encode_total (uuid4_int rnd)) as [digits Henc].
  rewrite (shorten_url_endpoint_run _ _ _ digits Henc) in Hrun. simpl in Hrun.
  case_decide as Hfresh; [done|]. injection Hrun as <- <-. simpl.
  set (code := substring 0 7 digits) in *.
  set (new := mkURLShortener (Some (next_id rows)) u code 0).
  assert (Hlookup : run_request (lookup_url code) (rows ++ [new]) =
            (inr (PyStr u),
             update_rows (next_id rows) (set_click_count (0 + 1) new) (rows ++ [new]))).
  { rewrite lookup_url_run, list_find_app_r.
    - simpl. by rewrite decide_True.
    - apply list_find_None, Forall_forall. intros row Hin Hcode.
      apply Hfresh, list_elem_of_fmap. by exists row. }
  split; [by rewrite Hlookup|]. rewrite redirect_run, Hlookup. simpl.
  by apply String.eqb_neq in Hu as ->.
Qed.

Lemma create_then_lookup_witness :
  let u := "https://example.com"%string in
  let rows' := [mkURLShortener (Some 1) u "1VgEh72" 0] in
  (run_request (lookup_url "1VgEh72") rows').1 = inr (PyStr u) ∧
  (run_request (redirect "1VgEh72") rows').1 = inr (mkRedirectResponse (PyStr u)).
Proof.
  apply (create_then_lookup "https://example.com" 0 []
           [mkURLShortener (Some 1) "https://example.com" "1VgEh72" 0]
           (mkShortenResponse "https://example.com" "1VgEh72")).
  - discriminate.
  - vm_compute. reflexivity.
Defined.

(** C3. In a table that satisfies its constraints, [N] calls of [lookup_url]
    in sequence on the code of a stored row add exactly [N] to that row's
    click count: the row found at its place afterwards has [click_count]
    equal to the old one plus [N], with the same key, URL and code; every
    other row is as it was and the table has the same length. A row that
    POST /shorten/ has just created starts from 0. *)
Theorem lookup_url_n_times (N : nat) (i : nat) (row : URLShortener)
    (rows : list URLShortener) :
  primary_key_ok rows → unique_short_codes rows → rows !! i = Some row →
  lookup_n N (shorten_url row) rows =
    <[i := set_click_count (click_count row + Z.of_nat N) row]> rows ∧
  (∃ row', lookup_n N (shorten_url row) rows !! i = Some row' ∧
           click_count row' = click_count row + Z.of_nat N ∧
           id row' = id row ∧
           original_url row' = original_url row ∧
           shorten_url row' = shorten_url row) ∧
  (∀ j, j ≠ i → lookup_n N (shorten_url row) rows !! j = rows !! j) ∧
  length (lookup_n N (shorten_url row) rows) = length rows ∧
  ∀ (body : ShortenRequest) (rnd : Z) (rows0 : list URLShortener)
    (resp : ShortenResponse),
    run_request (shorten_url_endpoint body rnd) rows0 = (inr resp, rows) →
    resp_shorten_url resp = shorten_url row →
    click_count row = 0.
Proof.
  intros Hpk Hcodes Hi.
  assert (Heq : lookup_n N (shorten_url row) rows =
                <[i := set_click_count (click_count row + Z.of_nat N) row]> rows).
  { revert row rows Hpk Hcodes Hi.
    induction N as [|N IH]; intros row rows Hpk Hcodes Hi.
    + simpl. rewrite Z.add_0_r. symmetry. apply list_insert_id.
      by destruct row.
    + cbn [lookup_n]. rewrite (lookup_url_hit rows i row) by done. cbn [snd].
      set (row1 := set_click_count (click_count row + 1) row).
      change (shorten_url row) with (shorten_url row1).
      rewrite (IH row1); [|unfold row1; eauto with table..].
      * rewrite list_insert_insert_eq. unfold row1.
        rewrite set_click_count_twice. simpl. do 2 f_equal. lia.
      * apply list_lookup_insert_eq. by eapply lookup_lt_Some. }
  split; [done|]. rewrite Heq. split_and!.
  - eexists. split; [by apply list_lookup_insert_eq; eapply lookup_lt_Some|].
    by simpl.
  - intros j Hj. by apply list_lookup_insert_ne.
  - apply length_insert.
  - intros body rnd rows0 resp Hrun Hcode.
    destruct (encode_total (uuid4_int rnd)) as [digits Henc].
    rewrite (shorten_url_endpoint_run _ _ _ digits Henc) in Hrun. simpl in Hrun.
    case_decide as Hfresh; [done|]. injection Hrun as <- <-. simpl in Hcode.
    apply lookup_app_Some in Hi as [Hi|[_ Hi]].
    + destruct Hfresh. rewrite Hcode. apply list_elem_of_fmap. exists row.
      split; [done|]. by eapply list_elem_of_lookup_2.
    + destruct (i - length rows0)%nat; [|done]. by injection Hi as <-.
Qed.

Lemma lookup_url_n_times_witness :
  let row := mkURLShortener (Some 1) "https://example.com" "1VgEh72" 0 in
  lookup_n 3 (shorten_url row) [row] =
    <[0%nat := set_click_count (click_count row + Z.of_nat 3) row]> [row] ∧
  (∃ row', lookup_n 3 (shorten_url row) [row] !! 0%nat = Some row' ∧
           click_count row' = click_count row + Z.of_nat 3 ∧
           id row' = id row ∧
           original_url row' = original_url row ∧
           shorten_url row' = shorten_url row) ∧
  (∀ j, j ≠ 0%nat → lookup_n 3 (shorten_url row) [row] !! j = [row] !! j) ∧
  length (lookup_n 3 (shorten_url row) [row]) = length [row] ∧
  ∀ (body : ShortenRequest) (rnd : Z) (rows0 : list URLShortener)
    (resp : ShortenResponse),
    run_request (shorten_url_endpoint body rnd) rows0 = (inr resp, [row]) →
    resp_shorten_url resp = shorten_url row →
    click_count row = 0.
Proof.
  apply (lookup_url_n_times 3 0
           (mkURLShortener (Some 1) "https://example.com" "1VgEh72" 0)
           [mkURLShortener (Some 1) "https://example.com" "1VgEh72" 0]).
  - split; by_evaluation.
  - by_evaluation.
  - reflexivity.
Defined.



(** C5 as stated fails: here the generated code ["1VgEh72"] is the code of
    the stored row, and what comes out of POST /shorten/ is the
    [IntegrityError] of the commit, uncaught, not a conflict outcome that the
    program handles. *)
Lemma create_collision_is_uncaught :
  let stored := mkURLShortener (Some 1) "https://a.example" "1VgEh72" 0 in
  let out :=
    run_request (shorten_url_endpoint (mkShortenRequest "https://b.example") 0) [stored] in
  substring 0 7 <$> encode (uuid4_int 0) = Some (shorten_url stored) ∧
  out.1 = inl IntegrityError ∧
  uncaught out.1 ≠ false.
Proof. vm_compute. by split_and!. Qed.

(** C5, as the program has it. When the generated code is already the
    [shorten_url] of a row, the unique index makes the commit raise
    [IntegrityError] and nothing is stored: no duplicate, the table is as
    before. The program does not catch the error: it leaves the handler of
    POST /shorten/ as it was raised, and the client gets a 500. *)
Theorem create_collision_raises (request : ShortenRequest) (rnd : Z)
    (rows : list URLShortener) (digits : string) :
  encode (uuid4_int rnd) = Some digits →
  substring 0 7 digits ∈ shorten_url <$> rows →
  let out := run_request (shorten_url_endpoint request rnd) rows in
  out = (inl IntegrityError, rows) ∧
  uncaught out.1 = true ∧
  status_of 200 out.1 = 500.
Proof.
  intros Henc Hin. simpl.
  rewrite (shorten_url_endpoint_run _ _ _ digits Henc). simpl.
  by rewrite decide_True.
Qed.

Lemma create_collision_raises_witness :
  let rows := [mkURLShortener (Some 1) "https://a.example" "1VgEh72" 0] in
  let out :=
    run_request (shorten_url_endpoint (mkShortenRequest "https://b.example") 0) rows in
  out = (inl IntegrityError, rows) ∧
  uncaught out.1 = true ∧
  status_of 200 out.1 = 500.
Proof.
  apply (create_collision_raises (mkShortenRequest "https://b.example") 0
           [mkURLShortener (Some 1) "https://a.example" "1VgEh72" 0]
           "1VgEh72lXvTXkG").
  - vm_compute. reflexivity.
  - by_evaluation.
Defined.

(** C6 as stated fails on its third invariant: POST /shorten/ stores the
    empty string as [original_url] when the body carries it. *)
Lemma create_stores_empty_url :
  urls_nonempty [] ∧
  serve (POST_shorten (mkShortenRequest "") 0) [] =
    [mkURLShortener (Some 1) "" "1VgEh72" 0] ∧
  ¬ urls_nonempty (serve (POST_shorten (mkShortenRequest "") 0) []).
Proof.
  split_and!; [constructor|by vm_compute|].
  intros H. vm_compute in H. by inversion H.
Qed.

(** C6, as the program has it. Every request keeps the primary key and the
    uniqueness of [shorten_url], never lowers a click count and never changes
    the key, URL or code of a row. [original_url] stays non-empty under
    lookups and statistics, and under POST /shorten/ as long as the
    submitted URL is not empty: the handler stores what it is given. *)
Theorem requests_preserve_invariants (rq : request) (rows : list URLShortener) :
  primary_key_ok rows → unique_short_codes rows →
  let rows' := serve rq rows in
  primary_key_ok rows' ∧ unique_short_codes rows' ∧
  click_counts_grow rows rows' ∧
  (urls_nonempty rows →
   (∀ body rnd, rq = POST_shorten body rnd → req_original_url body ≠ ""%string) →
   urls_nonempty rows').
Proof.
  intros Hpk Hcodes. simpl.
  destruct (serve_cases rq rows Hpk)
    as [->|[(i & row & Hi & ->)|(body & rnd & code & -> & Hfresh & ->)]].
  - split_and!; auto with table.
  - split_and!; eauto with table.
  - split_and!; [eauto with table..|].
    intros Hurls Hbody. apply Forall_app. split; [done|].
    constructor; [|constructor]. simpl. by eapply Hbody.
Qed.

Lemma requests_preserve_invariants_witness :
  let rows := [mkURLShortener (Some 1) "https://example.com" "1VgEh72" 0] in
  let rows' := serve (GET_redirect "1VgEh72") rows in
  primary_key_ok rows' ∧ unique_short_codes rows' ∧
  click_counts_grow rows rows' ∧
  (urls_nonempty rows →
   (∀ body rnd, GET_redirect "1VgEh72" = POST_shorten body rnd →
                req_original_url body ≠ ""%string) →
   urls_nonempty rows').
Proof.
  apply (requests_preserve_invariants (GET_redirect "1VgEh72")
           [mkURLShortener (Some 1) "https://example.com" "1VgEh72" 0]).
  - split; by_evaluation.
  - by_evaluation.
Defined.

(** C7. GET /stats/{short_code} leaves the table exactly as it was, whatever
    the code: every row, the matching one included, keeps its click count,
    URL and code. It answers with the first row that holds the code, or with
    404 when there is none. *)
Theorem get_stats_does_not_mutate (code : string) (rows : list URLShortener) :
  (run_request (get_stats code) rows).2 = rows ∧
  (run_request (get_stats code) rows).1 =
    match list_find (λ row, shorten_url row = code) rows with
    | Some (_, row) => inr row
    | None => inl (HTTPException 404 "URL not found")
    end.
Proof.
  rewrite get_stats_run. by destruct (list_find _ rows) as [[i row]|].
Qed.

(** C8 as stated fails: a string that is no URL passes the schema, is stored
    and answered with 200. *)
Lemma malformed_url_is_stored :
  let out := run_request (shorten_url_endpoint (mkShortenRequest "not a url") 0) [] in
  out = (inr (mkShortenResponse "not a url" "1VgEh72"),
         [mkURLShortener (Some 1) "not a url" "1VgEh72" 0]) ∧
  status_of 200 out.1 = 200.
Proof. by vm_compute. Qed.

(** C8, as the program has it. The schema of POST /shorten/ asks for a string
    and the handler checks nothing more: for every string, URL or not, the
    request either stores a row with that string as [original_url] and
    answers 200, or fails on a code collision with the uncaught
    [IntegrityError] (500) and stores nothing. No string is answered with a
    4xx status. *)
Theorem shorten_accepts_every_string (request : ShortenRequest) (rnd : Z)
    (rows : list URLShortener) :
  let out := run_request (shorten_url_endpoint request rnd) rows in
  (∃ code : string,
     out = (inr (mkShortenResponse (req_original_url request) code),
            rows ++ [mkURLShortener (Some (next_id rows)) (req_original_url request) code 0]) ∧
     (code ∉ shorten_url <$> rows) ∧
     status_of 200 out.1 = 200) ∨
  (out = (inl IntegrityError, rows) ∧ status_of 200 out.1 = 500).
Proof.
  simpl. destruct (encode_total (uuid4_int rnd)) as [digits Henc].
  rewrite (shorten_url_endpoint_run _ _ _ digits Henc). simpl.
  case_decide; [by right|]. left. by eexists.
Qed.

(** C9 as stated fails: [generate_short_code] itself adds the object to the
    session and commits, so a row is in the table when it returns. *)
Lemma generate_short_code_stores_row :
  let s := mkSession [] [new_URLShortener "https://example.com"] [] in
  db s = [] ∧
  db (generate_short_code 0%nat 0 s).2 =
    [mkURLShortener (Some 1) "https://example.com" "1VgEh72" 0] ∧
  db (generate_short_code 0%nat 0 s).2 ≠ db s.
Proof. by vm_compute. Qed.

(** C9, as the program has it. Called on a new object in a session with
    nothing pending, [generate_short_code] computes the code and persists the
    record itself: when the code is free it returns the code and the table
    has gained the row {url, code, clicks} under a fresh key; when the code is
    taken it raises [IntegrityError] and the table is as before. Its caller,
    the handler of POST /shorten/, stores nothing on its own: the table it
    leaves is the one [generate_short_code] leaves. *)
Theorem generate_short_code_persists (self : ref) (rnd : Z) (s : Session)
    (o : URLShortener) :
  objects s !! self = Some o → id o = None → pending s = [] →
  (∃ digits : string,
     encode (uuid4_int rnd) = Some digits ∧
     let code := substring 0 7 digits in
     let out := generate_short_code self rnd s in
     if decide (code ∈ shorten_url <$> db s)
     then out.1 = inl IntegrityError ∧ db out.2 = db s
     else out.1 = inr code ∧
          db out.2 =
            db s ++ [mkURLShortener (Some (next_id (db s))) (original_url o) code
                       (click_count o)]) ∧
  ∀ (request : ShortenRequest) (rows : list URLShortener),
    (run_request (shorten_url_endpoint request rnd) rows).2 =
    db (generate_short_code 0%nat rnd
          (mkSession rows [new_URLShortener (req_original_url request)] [])).2.
Proof.
  intros Hobj Hid Hpend. split.
  - destruct (encode_total (uuid4_int rnd)) as [digits Henc].
    exists digits. split; [done|]. simpl.
    assert (Hlt : (self < length (objects s))%nat) by by eapply lookup_lt_Some.
    unfold generate_short_code. run_session.
    rewrite Henc. simpl. unfold setattr. rewrite Hobj. simpl.
    unfold session_commit. simpl. rewrite Hpend. simpl.
    rewrite list_lookup_insert_eq by done. simpl. rewrite Hid.
    case_decide; [done|]. simpl.
    unfold session_refresh. simpl.
    rewrite list_lookup_insert_eq by by rewrite length_insert.
    simpl. rewrite list_find_app_r by apply next_id_fresh. simpl.
    rewrite decide_True by done. simpl.
    unfold getattr. simpl.
    by rewrite list_lookup_insert_eq by by rewrite !length_insert.
  - intros request rows.
    unfold run_request, shorten_url_endpoint, new_object. run_session.
    by destruct (generate_short_code _ _ _) as [[e|c] s'].
Qed.

Lemma generate_short_code_persists_witness :
  let s := mkSession [] [new_URLShortener "https://example.com"] [] in
  let o := new_URLShortener "https://example.com" in
  (∃ digits : string,
     encode (uuid4_int 0) = Some digits ∧
     let code := substring 0 7 digits in
     let out := generate_short_code 0%nat 0 s in
     if decide (code ∈ shorten_url <$> db s)
     then out.1 = inl IntegrityError ∧ db out.2 = db s
     else out.1 = inr code ∧
          db out.2 =
            db s ++ [mkURLShortener (Some (next_id (db s))) (original_url o) code
                       (click_count o)]) ∧
  ∀ (request : ShortenRequest) (rows : list URLShortener),
    (run_request (shorten_url_endpoint request 0) rows).2 =
    db (generate_short_code 0%nat 0
          (mkSession rows [new_URLShortener (req_original_url request)] [])).2.
Proof.
  apply (generate_short_code_persists 0%nat 0
           (mkSession [] [new_URLShortener "https://example.com"] [])
           (new_URLShortener "https://example.com")); reflexivity.
Defined.

(** C10. In a table that satisfies its constraints and holds a row whose
    [original_url] is the empty string, GET /{short_code} for that row's code
    adds one to the row's click count and answers 404: [redirect] tests the
    result of [lookup_url] for truth, and the empty string is false like the
    0 of a miss. So this 404 comes for a code that is stored, and with a
    table that has changed. *)
Theorem redirect_empty_url (i : nat) (row : URLShortener) (rows : list URLShortener) :
  primary_key_ok rows → unique_short_codes rows →
  rows !! i = Some row → original_url row = ""%string →
  run_request (redirect (shorten_url row)) rows =
    (inl (HTTPException 404 "URL not found"),
     <[i := set_click_count (click_count row + 1) row]> rows) ∧
  <[i := set_click_count (click_count row + 1) row]> rows ≠ rows ∧
  shorten_url row ∈ shorten_url <$> rows.
Proof.
  intros Hpk Hcodes Hi Hurl. split_and!.
  - rewrite redirect_run, (lookup_url_hit rows i row) by done. by rewrite Hurl.
  - intros Heq. assert (Hi' := Hi). rewrite <- Heq in Hi'.
    rewrite list_lookup_insert_eq in Hi' by by eapply lookup_lt_Some.
    injection Hi' as Hrow. apply (f_equal click_count) in Hrow. simpl in Hrow. lia.
  - apply list_elem_of_fmap. exists row. split; [done|]. by eapply list_elem_of_lookup_2.
Qed.

Lemma redirect_empty_url_witness :
  let row := mkURLShortener (Some 1) "" "1VgEh72" 0 in
  run_request (redirect (shorten_url row)) [row] =
    (inl (HTTPException 404 "URL not found"),
     <[0%nat := set_click_count (click_count row + 1) row]> [row]) ∧
  <[0%nat := set_click_count (click_count row + 1) row]> [row] ≠ [row] ∧
  shorten_url row ∈ shorten_url <$> [row].
Proof.
  apply (redirect_empty_url 0 (mkURLShortener (Some 1) "" "1VgEh72" 0)
           [mkURLShortener (Some 1) "" "1VgEh72" 0]).
  - split; by_evaluation.
  - by_evaluation.
  - reflexivity.
  - reflexivity.
Defined.

(** ** Further properties *)

(** *** Keys and rows across requests *)

Lemma max_id_nonneg (rows : list URLShortener) : 0 ≤ max_id rows.
Proof. induction rows; simpl; lia. Qed.

Lemma max_id_app (rows rows' : list URLShortener) :
  max_id (rows ++ rows') = Z.max (max_id rows) (max_id rows').
Proof.
  induction rows as [|r rows IH]; simpl.
  - pose proof (max_id_nonneg rows'). lia.
  - rewrite IH. lia.
Qed.

Lemma next_id_snoc (rows : list URLShortener) (new : URLShortener) :
  id new = Some (next_id rows) → next_id (rows ++ [new]) = next_id rows + 1.
Proof.
  intros Hid. unfold next_id in *. rewrite max_id_app. simpl. rewrite Hid. simpl.
  pose proof (max_id_nonneg rows). lia.
Qed.

Lemma set_click_count_same (row : URLShortener) :
  set_click_count (click_count row + 0) row = row.
Proof. destruct row. unfold set_click_count. simpl. by rewrite Z.add_0_r. Qed.

(** What one request does to one stored row: a GET /{code} for the row's own
    code adds a click, every other request leaves the row as it is. *)
Lemma serve_row (rq : request) (rows : list URLShortener) (i : nat)
    (row : URLShortener) :
  primary_key_ok rows → unique_short_codes rows → rows !! i = Some row →
  serve rq rows !! i =
    Some (set_click_count
            (click_count row + (if is_redirect_to (shorten_url row) rq then 1 else 0))
            row).
Proof.
  intros Hpk Hcodes Hi. destruct rq as [body rnd|code| |code]; simpl.
  - rewrite set_click_count_same.
    destruct (encode_total (uuid4_int rnd)) as [digits Henc].
    rewrite (shorten_url_endpoint_run _ _ _ digits Henc). simpl.
    case_decide; simpl; [done|].
    by rewrite lookup_app_l by by eapply lookup_lt_Some.
  - rewrite redirect_run. case_bool_decide as Hcode.
    + subst code. rewrite (lookup_url_hit rows i row) by done.
      destruct (truthy _); simpl;
        by rewrite list_lookup_insert_eq by by eapply lookup_lt_Some.
    + rewrite set_click_count_same, lookup_url_run.
      destruct (list_find _ rows) as [[j r]|] eqn:Hfind; simpl; [|done].
      apply list_find_Some in Hfind as (Hj & Hr & _).
      destruct Hpk as [Hnd Hsome]. rewrite Forall_forall in Hsome.
      destruct (Hsome r) as [k Hk]; [by eapply list_elem_of_lookup_2|].
      rewrite Hk, (update_rows_insert k _ r j) by done.
      assert (j ≠ i) by (intros ->; simplify_eq; done).
      destruct (truthy _); simpl; by rewrite list_lookup_insert_ne.
  - rewrite set_click_count_same. by rewrite get_all_rows_run.
  - rewrite set_click_count_same, get_stats_run.
    by destruct (list_find _ rows) as [[j r]|].
Qed.

Lemma serve_from_preserves_constraints (rqs : list request)
    (rows : list URLShortener) :
  primary_key_ok rows ∧ unique_short_codes rows →
  primary_key_ok (serve_from rows rqs) ∧ unique_short_codes (serve_from rows rqs).
Proof.
  revert rows. induction rqs as [|rq rqs IH]; intros rows Hok; [done|].
  simpl. by apply IH, serve_preserves_constraints.
Qed.

Lemma count_redirects_cons (code : string) (rq : request) (rqs : list request) :
  count_redirects code (rq :: rqs) =
    (if is_redirect_to code rq then 1 else 0) + count_redirects code rqs.
Proof.
  unfold count_redirects. rewrite filter_cons.
  destruct (is_redirect_to code rq); simpl; lia.
Qed.

Lemma serve_from_row (rqs : list request) (rows : list URLShortener) (i : nat)
    (row : URLShortener) :
  primary_key_ok rows → unique_short_codes rows → rows !! i = Some row →
  serve_from rows rqs !! i =
    Some (set_click_count
            (click_count row + count_redirects (shorten_url row) rqs) row).
Proof.
  revert rows row. induction rqs as [|rq rqs IH]; intros rows row Hpk Hcodes Hi.
  - simpl. unfold count_redirects. simpl. by rewrite set_click_count_same.
  - simpl. pose proof (serve_row rq rows i row Hpk Hcodes Hi) as Hstep.
    destruct (serve_preserves_constraints rq rows (conj Hpk Hcodes)) as [Hpk' Hcodes'].
    rewrite (IH _ _ Hpk' Hcodes' Hstep), count_redirects_cons.
    unfold set_click_count. simpl. do 2 f_equal. lia.
Qed.

(** [lookup_url] n times, as a replacement at the row's place. *)
Lemma lookup_n_insert (N : nat) (i : nat) (row : URLShortener)
    (rows : list URLShortener) :
  primary_key_ok rows → unique_short_codes rows → rows !! i = Some row →
  lookup_n N (shorten_url row) rows =
    <[i := set_click_count (click_count row + Z.of_nat N) row]> rows.
Proof.
  revert row rows. induction N as [|N IH]; intros row rows Hpk Hcodes Hi.
  - simpl. rewrite set_click_count_same. symmetry. by apply list_insert_id.
  - cbn [lookup_n]. rewrite (lookup_url_hit rows i row) by done. cbn [snd].
    set (row1 := set_click_count (click_count row + 1) row).
    change (shorten_url row) with (shorten_url row1).
    rewrite (IH row1); [|unfold row1; eauto with table..].
    + rewrite list_insert_insert_eq. unfold row1.
      rewrite set_click_count_twice. simpl. do 2 f_equal. lia.
    + apply list_lookup_insert_eq. by eapply lookup_lt_Some.
Qed.


(** *** Properties of the handlers beyond the claims *)

(** X1. GET /stats/ answers with every row of the table, in table order and
    as stored, raises nothing and leaves the table as it was. *)
Theorem get_all_rows_returns_table (rows : list URLShortener) :
  run_request get_all_rows rows = (inr rows, rows).
Proof.
  unfold run_request, get_all_rows, exec_all. run_session.
  (* the objects loaded by the query are the rows, at references 0, 1, ... *)
  pose proof (jsonable_encoder_list_seq (mkSession rows rows []) [] rows eq_refl)
    as Hencode.
  simpl in Hencode. by rewrite Hencode.
Qed.

(** X2. Two successful POST /shorten/ in a row, then GET /stats/: the list is
    the old table followed by the two new records in creation order, each
    with the URL submitted (the two URLs may be equal: nothing is
    deduplicated), the code returned, click count 0 and the next two primary
    keys; the two codes differ. *)
Theorem create_twice_then_list (u1 u2 : string) (rnd1 rnd2 : Z)
    (rows rows1 rows2 : list URLShortener) (resp1 resp2 : ShortenResponse) :
  run_request (shorten_url_endpoint (mkShortenRequest u1) rnd1) rows = (inr resp1, rows1) →
  run_request (shorten_url_endpoint (mkShortenRequest u2) rnd2) rows1 = (inr resp2, rows2) →
  run_request get_all_rows rows2 =
    (inr (rows ++
          [mkURLShortener (Some (next_id rows)) u1 (resp_shorten_url resp1) 0;
           mkURLShortener (Some (next_id rows + 1)) u2 (resp_shorten_url resp2) 0]),
     rows2) ∧
  resp_shorten_url resp1 ≠ resp_shorten_url resp2.
Proof.
  intros Hrun1 Hrun2.
  destruct (encode_total (uuid4_int rnd1)) as [digits1 Henc1].
  destruct (encode_total (uuid4_int rnd2)) as [digits2 Henc2].
  rewrite (shorten_url_endpoint_run _ _ _ digits1 Henc1) in Hrun1. simpl in Hrun1.
  case_decide as Hfresh1; [done|]. injection Hrun1 as <- <-.
  rewrite (shorten_url_endpoint_run _ _ _ digits2 Henc2) in Hrun2. simpl in Hrun2.
  case_decide as Hfresh2; [done|]. injection Hrun2 as <- <-. simpl.
  rewrite get_all_rows_run, next_id_snoc, <- app_assoc by done. split; [done|].
  intros Heq. apply Hfresh2. rewrite fmap_app, <- Heq. simpl.
  apply elem_of_app. right. constructor.
Qed.

Lemma create_twice_then_list_witness :
  let u := "https://example.com"%string in
  run_request get_all_rows
    [mkURLShortener (Some 1) u "1VgEh72" 0; mkURLShortener (Some 2) u "3tX16dB" 0] =
    (inr ([] ++
          [mkURLShortener (Some (next_id [])) u "1VgEh72" 0;
           mkURLShortener (Some (next_id [] + 1)) u "3tX16dB" 0]),
     [mkURLShortener (Some 1) u "1VgEh72" 0; mkURLShortener (Some 2) u "3tX16dB" 0]) ∧
  "1VgEh72"%string ≠ "3tX16dB"%string.
Proof.
  apply (create_twice_then_list "https://example.com" "https://example.com"
           0 (2 ^ 127) []
           [mkURLShortener (Some 1) "https://example.com" "1VgEh72" 0]
           [mkURLShortener (Some 1) "https://example.com" "1VgEh72" 0;
            mkURLShortener (Some 2) "https://example.com" "3tX16dB" 0]
           (mkShortenResponse "https://example.com" "1VgEh72")
           (mkShortenResponse "https://example.com" "3tX16dB")).
  - vm_compute. reflexivity.
  - vm_compute. reflexivity.
Defined.

(** X3. Across any sequence of requests on a table that satisfies its
    constraints, a stored row stays at its place with its key, URL and code,
    and its [click_count] grows by exactly the number of GET /{its code}
    requests in the sequence, whatever else is requested in between;
    GET /stats/{its code} afterwards reports exactly that row. *)
Theorem click_count_counts_redirects (rqs : list request) (i : nat)
    (row : URLShortener) (rows : list URLShortener) :
  primary_key_ok rows → unique_short_codes rows → rows !! i = Some row →
  let counted :=
    set_click_count (click_count row + count_redirects (shorten_url row) rqs) row in
  serve_from rows rqs !! i = Some counted ∧
  run_request (get_stats (shorten_url row)) (serve_from rows rqs) =
    (inr counted, serve_from rows rqs) ∧
  ∃ row', serve_from rows rqs !! i = Some row' ∧
          click_count row' = click_count row + count_redirects (shorten_url row) rqs ∧
          id row' = id row ∧
          original_url row' = original_url row ∧
          shorten_url row' = shorten_url row ∧
          (run_request (get_stats (shorten_url row)) (serve_from rows rqs)).1 = inr row'.
Proof.
  intros Hpk Hcodes Hi. simpl.
  pose proof (serve_from_row rqs rows i row Hpk Hcodes Hi) as Hrow.
  destruct (serve_from_preserves_constraints rqs rows (conj Hpk Hcodes))
    as [Hpk' Hcodes'].
  pose proof (list_find_unique _ i _ Hcodes' Hrow) as Hfind. simpl in Hfind.
  assert (Hstats : run_request (get_stats (shorten_url row)) (serve_from rows rqs) =
            (inr (set_click_count
                    (click_count row + count_redirects (shorten_url row) rqs) row),
             serve_from rows rqs))
    by by rewrite get_stats_run, Hfind.
  split_and!; [done..|].
  eexists. split; [exact Hrow|]. rewrite Hstats. by simpl.
Qed.

Lemma click_count_counts_redirects_witness :
  let a := mkURLShortener (Some 1) "https://a.example" "1VgEh72" 0 in
  let b := mkURLShortener (Some 2) "https://b.example" "3tX16dB" 5 in
  let rqs := [GET_redirect "1VgEh72"; GET_stats "1VgEh72"; GET_redirect "3tX16dB";
              POST_shorten (mkShortenRequest "https://c.example") (2 ^ 48);
              GET_stats_all; GET_redirect "nosuch0"; GET_redirect "1VgEh72"] in
  let counted :=
    set_click_count (click_count a + count_redirects (shorten_url a) rqs) a in
  serve_from [a; b] rqs !! 0%nat = Some counted ∧
  run_request (get_stats (shorten_url a)) (serve_from [a; b] rqs) =
    (inr counted, serve_from [a; b] rqs) ∧
  ∃ row', serve_from [a; b] rqs !! 0%nat = Some row' ∧
          click_count row' = click_count a + count_redirects (shorten_url a) rqs ∧
          id row' = id a ∧
          original_url row' = original_url a ∧
          shorten_url row' = shorten_url a ∧
          (run_request (get_stats (shorten_url a)) (serve_from [a; b] rqs)).1 = inr row'.
Proof.
  apply (click_count_counts_redirects
           [GET_redirect "1VgEh72"; GET_stats "1VgEh72"; GET_redirect "3tX16dB";
            POST_shorten (mkShortenRequest "https://c.example") (2 ^ 48);
            GET_stats_all; GET_redirect "nosuch0"; GET_redirect "1VgEh72"]
           0 (mkURLShortener (Some 1) "https://a.example" "1VgEh72" 0)
           [mkURLShortener (Some 1) "https://a.example" "1VgEh72" 0;
            mkURLShortener (Some 2) "https://b.example" "3tX16dB" 5]).
  - split; by_evaluation.
  - by_evaluation.
  - reflexivity.
Defined.

(** X4. GET /stats/{short_code} answers 404 exactly when no row holds the
    code; when it answers with a record, that record is a row of the table
    and holds the code. *)
Theorem get_stats_404_iff_absent (code : string) (rows : list URLShortener) :
  ((run_request (get_stats code) rows).1 = inl (HTTPException 404 "URL not found")
   ↔ code ∉ shorten_url <$> rows) ∧
  ∀ row, (run_request (get_stats code) rows).1 = inr row →
         row ∈ rows ∧ shorten_url row = code.
Proof.
  rewrite get_stats_run.
  destruct (list_find _ rows) as [[i row]|] eqn:Hfind; simpl.
  - apply list_find_Some in Hfind as (Hin%list_elem_of_lookup_2 & Hcode & _).
    split.
    + split; [done|]. intros Habs. destruct Habs.
      apply list_elem_of_fmap. by exists row.
    + by intros ? [= <-].
  - split; [|done]. split; [|done]. intros _ Hin.
    apply list_elem_of_fmap in Hin as (row & -> & Hin).
    apply list_find_None in Hfind. rewrite Forall_forall in Hfind.
    by apply (Hfind row).
Qed.

Lemma redirect_miss (code : string) (rows : list URLShortener) :
  code ∉ shorten_url <$> rows →
  run_request (redirect code) rows =
    (inl (HTTPException 404 "URL not found"), rows).
Proof.
  intros Hout. rewrite redirect_run, lookup_url_run.
  destruct (list_find _ rows) as [[i row]|] eqn:Hfind; [|done].
  apply list_find_Some in Hfind as (Hin%list_elem_of_lookup_2 & Hcode & _).
  destruct Hout. apply list_elem_of_fmap. by exists row.
Qed.

(** X5. On a table that satisfies its constraints, GET /{short_code} answers
    404 exactly when no row holds the code or the row that holds it has an
    empty URL; when it redirects, the target is the non-empty URL stored
    under that code. *)
Theorem redirect_answer (code : string) (rows : list URLShortener) :
  primary_key_ok rows → unique_short_codes rows →
  let out := run_request (redirect code) rows in
  (out.1 = inl (HTTPException 404 "URL not found")
   ↔ code ∉ shorten_url <$> rows
     ∨ ∃ row, row ∈ rows ∧ shorten_url row = code ∧ original_url row = ""%string) ∧
  ∀ resp, out.1 = inr resp →
    ∃ row, row ∈ rows ∧ shorten_url row = code ∧
           original_url row ≠ ""%string ∧
           resp = mkRedirectResponse (PyStr (original_url row)).
Proof.
  intros Hpk Hcodes. simpl.
  destruct (decide (code ∈ shorten_url <$> rows)) as [Hin|Hout].
  - apply list_elem_of_fmap in Hin as (row & -> & Hin).
    apply list_elem_of_lookup in Hin as [i Hi].
    assert (Hrow : row ∈ rows) by by eapply list_elem_of_lookup_2.
    rewrite redirect_run, (lookup_url_hit rows i row) by done. simpl.
    destruct (String.eqb_spec (original_url row) "") as [Hempty|Hfull]; simpl.
    + split; [|done]. split; [|done]. intros _. right. by exists row.
    + split.
      * split; [done|]. intros [Habs|(row' & Hin' & Hcode' & Hempty)].
        { destruct Habs. apply list_elem_of_fmap. by exists row. }
        apply list_elem_of_lookup in Hin' as [j Hj].
        pose proof (list_find_unique rows i row Hcodes Hi) as Hf.
        pose proof (list_find_unique rows j row' Hcodes Hj) as Hf'.
        rewrite Hcode' in Hf'. rewrite Hf in Hf'. by simplify_eq.
      * intros resp [= <-]. by exists row.
  - rewrite redirect_miss by done. simpl.
    split; [|done]. split; [by left|done].
Qed.

Lemma redirect_answer_witness :
  let rows := [mkURLShortener (Some 1) "https://a.example" "1VgEh72" 0;
               mkURLShortener (Some 2) "" "3tX16dB" 0] in
  let out := run_request (redirect "3tX16dB") rows in
  (out.1 = inl (HTTPException 404 "URL not found")
   ↔ "3tX16dB"%string ∉ shorten_url <$> rows
     ∨ ∃ row, row ∈ rows ∧ shorten_url row = "3tX16dB"%string ∧
              original_url row = ""%string) ∧
  ∀ resp, out.1 = inr resp →
    ∃ row, row ∈ rows ∧ shorten_url row = "3tX16dB"%string ∧
           original_url row ≠ ""%string ∧
           resp = mkRedirectResponse (PyStr (original_url row)).
Proof.
  apply (redirect_answer "3tX16dB"
           [mkURLShortener (Some 1) "https://a.example" "1VgEh72" 0;
            mkURLShortener (Some 2) "" "3tX16dB" 0]).
  - split; by_evaluation.
  - by_evaluation.
Defined.


(** X7. A successful POST /shorten/ followed by GET /stats/{code} for the
    code it returned: the answer is the new record, with the URL as
    submitted, that code, click count 0 and the next primary key; the
    response of the POST echoes the submitted URL. *)
Theorem create_then_get_stats (u : string) (rnd : Z) (rows rows' : list URLShortener)
    (resp : ShortenResponse) :
  run_request (shorten_url_endpoint (mkShortenRequest u) rnd) rows = (inr resp, rows') →
  run_request (get_stats (resp_shorten_url resp)) rows' =
    (inr (mkURLShortener (Some (next_id rows)) u (resp_shorten_url resp) 0), rows') ∧
  resp_original_url resp = u.
Proof.
  intros Hrun. destruct (encode_total (uuid4_int rnd)) as [digits Henc].
  rewrite (shorten_url_endpoint_run _ _ _ digits Henc) in Hrun. simpl in Hrun.
  case_decide as Hfresh; [done|]. injection Hrun as <- <-. simpl.
  split; [|done]. rewrite get_stats_run, list_find_app_r.
  - simpl. by rewrite decide_True.
  - apply list_find_None, Forall_forall. intros row Hin Hcode.
    apply Hfresh, list_elem_of_fmap. by exists row.
Qed.

Lemma create_then_get_stats_witness :
  run_request (get_stats "1VgEh72")
    [mkURLShortener (Some 1) "https://example.com" "1VgEh72" 0] =
    (inr (mkURLShortener (Some (next_id [])) "https://example.com" "1VgEh72" 0),
     [mkURLShortener (Some 1) "https://example.com" "1VgEh72" 0]) ∧
  "https://example.com"%string = "https://example.com"%string.
Proof.
  apply (create_then_get_stats "https://example.com" 0 []
           [mkURLShortener (Some 1) "https://example.com" "1VgEh72" 0]
           (mkShortenResponse "https://example.com" "1VgEh72")).
  vm_compute. reflexivity.
Defined.

(** *** Properties of the short code beyond the claims *)

Lemma substring_0_eq (m : nat) (s t : string) :
  take m (list_ascii_of_string s) = take m (list_ascii_of_string t) →
  substring 0 m s = substring 0 m t.
Proof.
  intros H. rewrite <- !substring_0_chars in H.
  rewrite <- (string_of_list_ascii_of_string (substring 0 m s)),
    <- (string_of_list_ascii_of_string (substring 0 m t)). by rewrite H.
Qed.

Lemma short_code_leading_digits (n : Z) (k : nat) (s t : string) :
  BASE ^ 6 ≤ n / BASE ^ Z.of_nat k →
  encode n = Some s → encode (n / BASE ^ Z.of_nat k) = Some t →
  substring 0 7 s = substring 0 7 t.
Proof.
  intros Hq Hs Ht.
  assert (Hqpos : 0 < n / BASE ^ Z.of_nat k) by (unfold BASE in *; lia).
  assert (Hpos : 0 < n).
  { destruct (Z.le_gt_cases n 0); [|done].
    assert (n / BASE ^ Z.of_nat k ≤ 0); [|lia].
    apply Z.div_le_upper_bound; [apply Z.pow_pos_nonneg; unfold BASE; lia|lia]. }
  apply substring_0_eq.
  rewrite (encode_chars n s Hpos Hs), (encode_chars _ t Hqpos Ht).
  by apply digits_of_take.
Qed.

(** X8. [encode] writes a non-negative integer in base 62, most significant
    digit first: the digits it returns denote the integer it was given, so
    two different non-negative integers never get the same encoding. What
    the code loses, it loses in the slice [[:7]]. *)
Theorem encode_base62_value (n m : Z) (s : string) :
  0 ≤ n → encode n = Some s →
  base62_value s = n ∧ (0 ≤ m → encode m = Some s → m = n).
Proof.
  assert (Hvalue : ∀ k t, 0 ≤ k → encode k = Some t → base62_value t = k).
  { intros k t Hk Henc. destruct (decide (k = 0)) as [->|Hne].
    - vm_compute in Henc. by injection Henc as <-.
    - unfold base62_value. rewrite (encode_chars k t) by (done || lia).
      by apply digits_of_value. }
  intros Hn Henc. split; [by apply Hvalue|].
  intros Hm Henc'. by rewrite <- (Hvalue n s), <- (Hvalue m s).
Qed.

Lemma encode_base62_value_witness :
  base62_value "1VgEh72lXvTXkG" = uuid4_int 0 ∧
  (0 ≤ 2 ^ 78 + 2 ^ 63 → encode (2 ^ 78 + 2 ^ 63) = Some "1VgEh72lXvTXkG"%string →
   2 ^ 78 + 2 ^ 63 = uuid4_int 0).
Proof.
  apply (encode_base62_value (uuid4_int 0) (2 ^ 78 + 2 ^ 63) "1VgEh72lXvTXkG").
  - vm_compute. discriminate.
  - vm_compute. reflexivity.
Defined.

(** X9. The short code is made of the leading digits only: dropping any
    number of low-order base-62 digits of the integer, as long as seven
    remain, gives the same code; when exactly seven remain, the code is the
    encoding of what is left. *)
Theorem short_code_ignores_low_digits (n : Z) (k : nat) (s t : string) :
  BASE ^ 6 ≤ n / BASE ^ Z.of_nat k →
  encode n = Some s → encode (n / BASE ^ Z.of_nat k) = Some t →
  substring 0 7 s = substring 0 7 t ∧
  (n / BASE ^ Z.of_nat k < BASE ^ 7 → substring 0 7 s = t).
Proof.
  intros Hq Hs Ht.
  assert (Heq : substring 0 7 s = substring 0 7 t)
    by by eapply short_code_leading_digits.
  split; [done|]. intros Hlt. rewrite Heq.
  assert (Hqpos : 0 < n / BASE ^ Z.of_nat k) by (unfold BASE in *; lia).
  rewrite <- (string_of_list_ascii_of_string (substring 0 7 t)).
  rewrite substring_0_chars, (encode_chars _ t Hqpos Ht).
  rewrite take_ge by by apply (digits_of_length_upper _ 7).
  rewrite <- (encode_chars _ t Hqpos Ht). apply string_of_list_ascii_of_string.
Qed.

Lemma short_code_ignores_low_digits_witness :
  substring 0 7 "1VgEh72lXvTXkG" = substring 0 7 "1VgEh72" ∧
  (uuid4_int 0 / BASE ^ Z.of_nat 7 < BASE ^ 7 →
   substring 0 7 "1VgEh72lXvTXkG" = "1VgEh72"%string).
Proof.
  apply (short_code_ignores_low_digits (uuid4_int 0) 7 "1VgEh72lXvTXkG" "1VgEh72").
  - vm_compute. discriminate.
  - vm_compute. reflexivity.
  - vm_compute. reflexivity.
Defined.

(** X10. For every 128-bit draw, the base-62 encoding of the [uuid4] integer
    has between 14 and 22 digits and does not start with the digit 0; so the
    slice always cuts 7 to 15 digits off, and the short code never starts
    with 0. *)
Theorem uuid4_encoding_shape (rnd : Z) (s : string) :
  0 ≤ rnd < 2 ^ 128 → encode (uuid4_int rnd) = Some s →
  (14 ≤ String.length s ≤ 22)%nat ∧
  String.get 0 s ≠ Some "0"%char ∧
  String.get 0 (substring 0 7 s) = String.get 0 s.
Proof.
  intros Hrnd Henc. pose proof (uuid4_int_range rnd Hrnd) as [Hlo Hhi].
  assert (Hpos : 0 < uuid4_int rnd) by lia.
  pose proof (encode_chars _ _ Hpos Henc) as Hchars.
  rewrite <- (string_of_list_ascii_of_string s), Hchars.
  rewrite string_of_list_ascii_length. split_and!.
  - assert (13 < length (digits_of (uuid4_int rnd)))%nat; [|lia].
    apply digits_of_length_lower. unfold BASE. simpl. lia.
  - apply digits_of_length_upper. unfold BASE. simpl. lia.
  - destruct (digits_of_head _ Hpos) as (d & rest & -> & Hd). simpl.
    intros [= Hzero]. by apply (charset_at_not_zero d).
  - by destruct (digits_of (uuid4_int rnd)).
Qed.

Lemma uuid4_encoding_shape_witness :
  (14 ≤ String.length "3tX16dB2lLZ6m0c9zU6OYK" ≤ 22)%nat ∧
  String.get 0 "3tX16dB2lLZ6m0c9zU6OYK" ≠ Some "0"%char ∧
  String.get 0 (substring 0 7 "3tX16dB2lLZ6m0c9zU6OYK") =
    String.get 0 "3tX16dB2lLZ6m0c9zU6OYK".
Proof.
  apply (uuid4_encoding_shape (2 ^ 127) "3tX16dB2lLZ6m0c9zU6OYK").
  - lia.
  - vm_compute. reflexivity.
Defined.

(** X11. Two draws whose [uuid4] integers agree above some base-62 digit,
    with at least seven digits above it, yield the same code: once POST
    /shorten/ has stored a record for the first draw, a POST with the second
    draw, for whatever URL, fails with the uncaught [IntegrityError] and
    leaves the table as it was. *)
Theorem colliding_draws_rejected (u1 u2 : string) (rnd1 rnd2 : Z) (k : nat)
    (rows rows' : list URLShortener) (resp : ShortenResponse) :
  run_request (shorten_url_endpoint (mkShortenRequest u1) rnd1) rows = (inr resp, rows') →
  BASE ^ 6 ≤ uuid4_int rnd1 / BASE ^ Z.of_nat k →
  uuid4_int rnd2 / BASE ^ Z.of_nat k = uuid4_int rnd1 / BASE ^ Z.of_nat k →
  run_request (shorten_url_endpoint (mkShortenRequest u2) rnd2) rows' =
    (inl IntegrityError, rows').
Proof.
  intros Hrun Hq Hsame.
  destruct (encode_total (uuid4_int rnd1)) as [digits1 Henc1].
  destruct (encode_total (uuid4_int rnd2)) as [digits2 Henc2].
  destruct (encode_total (uuid4_int rnd1 / BASE ^ Z.of_nat k)) as [lead Hlead].
  pose proof (short_code_leading_digits _ k _ _ Hq Henc1 Hlead) as Heq1.
  rewrite <- Hsame in Hq, Hlead.
  pose proof (short_code_leading_digits _ k _ _ Hq Henc2 Hlead) as Heq2.
  rewrite (shorten_url_endpoint_run _ _ _ digits1 Henc1) in Hrun. simpl in Hrun.
  case_decide as Hfresh; [done|]. injection Hrun as <- <-.
  rewrite (shorten_url_endpoint_run _ _ _ digits2 Henc2). simpl.
  rewrite decide_True; [done|].
  rewrite fmap_app, Heq2, <- Heq1. apply elem_of_app. right. constructor.
Qed.

Lemma colliding_draws_rejected_witness :
  run_request (shorten_url_endpoint (mkShortenRequest "https://b.example") 1)
    [mkURLShortener (Some 1) "https://a.example" "1VgEh72" 0] =
    (inl IntegrityError, [mkURLShortener (Some 1) "https://a.example" "1VgEh72" 0]).
Proof.
  apply (colliding_draws_rejected "https://a.example" "https://b.example" 0 1 7 []
           [mkURLShortener (Some 1) "https://a.example" "1VgEh72" 0]
           (mkShortenResponse "https://a.example" "1VgEh72")).
  - vm_compute. reflexivity.
  - vm_compute. discriminate.
  - vm_compute. reflexivity.
Defined.
